(* ===== verification/_CoqProject ===== *)
-Q . S2P
Prelude.v
PyRuntime.v
PyStr.v
AuxPaths.v
RecordingKeys.v
AwsServices.v
EventBridge.v
IngestHandler.v
AnalyticsHandler.v
Pipeline.v
EventLoop.v
