(* ===== verification/Prelude.v ===== *)
(** * A verification development for the speechai-workshop Lambda functions

    ** The program

    Two AWS Lambda functions, each one Python file, glue a contact-center
    pipeline together:
    - [src/resources/code/2-datalake-ingestion-service/src/ingest_call_recording.py]
      receives the EventBridge "Object Created" event of a call recording that
      Amazon Connect stored under [.../CallRecordings/YYYY/MM/DD/<uuid>_YYYYMMDDTHH:MM_UTC.wav],
      rewrites the key with [construct_destination_object_key] (find the
      marker, slice the timestamp at offsets 52, 54 and 62) and copies the
      object into the data-lake bucket under
      [call-recordings-raw/YYYY/MM/DD/<uuid>_YYYY-MM-DDTHH:MM:00Z.wav];
    - [src/resources/code/3-call-transcription-service/src/run_call_analytics.py]
      receives the event of that copy, rewrites its key with two
      [str.replace] calls into the output location of the analytics result,
      and submits a Transcribe Call Analytics job named [job-<uuid4 hex>]
      ([run_call_analytics]).
    The handlers share no state; they are connected by the data-lake bucket,
    named by the same environment variable in both, and by the key
    convention of the [aux_paths] module.

    ** Files

    - [Prelude] (this file): Python strings as [list ascii] ([pystr], [py]),
      [startswith] and substring occurrence, the hint databases [pystr] and
      [pystr_rw], and the tactics [py_lia] and [decide_by_computation].
    - [PyRuntime]: Python's exceptions, the state-and-exception monad [M]
      in which a handler body is written (a raised exception keeps the state
      reached so far), Python values ([pyval]: dicts, lists, strings) with
      [dict[key]] ([getitem]) and [list[i]] ([py_list_index]),
      [os.environ[...]] and [os.environ.get] ([environ_getitem],
      [environ_get]), the Lambda context, and [preserves R m], a relation
      every step of a computation preserves, composed through [bind].
    - [PyStr]: CPython's [str.find], slicing [s[a:b]] with negative and
      out-of-range indices, [str.replace] (non-overlapping, left to right,
      with the empty-pattern case) and [str.split], with their lemmas.
    - [AuxPaths]: the module [aux_paths] (not under src/, modelled from the
      specification) as the class [AuxPaths] of its four constants, the laws
      the key theorems need as the class [AuxPathsOk], and the workshop's
      values as an instance whose laws are decided by computation. The key
      theorems are proved against the class, so they hold for any values
      that satisfy the laws.
    - [RecordingKeys]: the key contract without slicing: a [recording] is the
      fields of a Connect key, [recording_wf] its well-formedness, and
      [connect_key], [datalake_key], [analytics_key] its three renderings.
    - [AwsServices]: the services the handlers call, as a [world] record
      (environment, S3 objects, Transcribe jobs, the [uuid4] random source):
      [copy_object] and [start_call_analytics_job] with botocore's
      parameter validation and the service errors ([NoSuchKey],
      [ConflictException]), and [uuid4_hex].
    - [EventBridge]: the module [aux_eventbridge_events] (not under src/,
      modelled from the specification): the extraction of bucket, key and
      copy source from an event, and the event S3 emits for a new object.
    - [IngestHandler], [Module IngestCallRecording]: the ENV_* constants,
      [construct_destination_object_key] and [lambda_handler] of
      [ingest_call_recording.py].
    - [AnalyticsHandler], [Module RunCallAnalytics]: the ENV_* constants,
      [construct_destination_object_key], [channel_definitions] (the
      [ChannelDefinitions] argument), [run_call_analytics] and
      [lambda_handler] of [run_call_analytics.py].
    - [Pipeline]: [pipeline], the two handlers wired by the event of the
      copy, and [invoke_both], two invocations run by the platform one after
      the other.
    - [EventLoop]: the platform as a state machine: a state is the world and
      the pending deliveries, [sys_step] delivers any one of them to its
      function, and a successful ingestion adds the event of its copy
      ([emitted]); an invocation that raises is dropped.

    Each handler is translated call by call: every Python operation that
    can raise is a step of [M] that raises the exception CPython or botocore
    raises, so the error paths of the code are values of the model. For
    each handler a plan lemma ([ingest_handler_plan],
    [analytics_handler_plan]) splits it into the part that reads only the
    event and the environment and the one effectful service call.

    ** Theorems

    - Refinement of the key contract: the ingestion rewriting maps
      [connect_key r] to [datalake_key r], the analytics rewriting maps
      [datalake_key r] to [analytics_key r], for every well-formed recording
      whose prefix has no marker; the composed pipeline copies the recording
      and submits a job reading the copy and writing the analytics key.
    - Functional behaviour of each handler on its success path and on each
      error path: no region, a short function ARN, an unset data-lake
      bucket (a TypeError in both handlers: from ['s3://' + None] in one,
      from botocore's bucket-name check in the other), an unset role, a missing source object, a job-name
      conflict.
    - Frame properties: ingestion only adds S3 copies, analytics only adds
      jobs and moves the random cursor ([copies_only], [submits_only],
      proved with [preserves]); ingestion is idempotent; a redelivered
      event submits a second job.
    - For every key, well-formed or not, the pipeline's job writes under the
      transcription prefix and ends with the result suffix and [.json]
      ([pipeline_output_location]); it rests on [py_replace_app], the
      distribution of [str.replace] over a concatenation no match crosses.
    - Interleaving: an ingestion and an analytics invocation commute, on
      any events ([handlers_commute]), from the frame lemmas
      [ingest_handler_frame] and [analytics_handler_frame]: ingestion reads
      and writes only S3, analytics only the jobs and the random cursor.
      Two analytics invocations commute up to the names of the jobs
      ([analytics_handlers_commute]): [world_equiv] is an [Equivalence]
      (jobs compared as a multiset, by [Permutation]) with [Proper]
      instances for the number of jobs and for the presence of a job.
    - Malformed events ([ingest_handler_malformed_event],
      [analytics_handler_malformed_event]): a missing field, a field that
      is not a dict, a copy source that is not a dict or a key that is not
      a string raise before any service is called.
    - Bound ([sys_runs_job_bound]): along any run of the platform the jobs
      never outnumber the jobs at the start plus the events pending then;
      [job_budget], the jobs plus the pending deliveries, never grows.
    - Invariant of the job store ([jobs_wf], [analytics_runs_jobs_wf]):
      along any run, every job's output location is the analytics rewriting
      of its input key, with the configured role and channel map.
    - Round trip: [source_object_key_of] undoes the analytics rewriting on
      data-lake keys, so that rewriting loses nothing of the stem.
    - Liveness and data preservation of the platform ([sys_runs_submit],
      [sys_runs_keep_data]): every run that empties the queue has
      submitted the job of a stored recording, whatever the other events
      and the order of delivery (induction on the run with the invariant
      [tracked]); along any run the environment is unchanged, no S3 object
      disappears, every object holds content stored at the start, and no
      job is altered ([keeps_data], a [PreOrder]). Termination of the
      platform is not claimed: the event of the copy is routed by the
      deployment's rule, which the model fixes, so finiteness would be a
      consequence of that fixed routing, not of the code.
    - Safety over runs: along any sequence of analytics invocations
      ([analytics_runs], an inductive step relation) no [ConflictException]
      is ever raised when the random source never repeats.
    - Behaviour outside the contract, reported as findings: a key without
      the marker, a Connect prefix that itself contains the marker (the
      first occurrence wins, [construct_destination_object_key_marker_in_prefix]),
      the prefix before the marker dropped, so recordings under two prefixes
      collide on one data-lake key ([construct_destination_object_key_forgets_prefix]), [str.replace] rewriting every occurrence, an unrelated key
      passing through unchanged, and the length of the rewritten key.

    ** Bounds and fuel

    [str.split] recurses through [find] and is given fuel [length s + 1];
    [split_fuel_enough] proves that any larger fuel gives the same pieces,
    since each cut consumes the nonempty separator. [str.replace] and
    [str.find] are structural. Indices are [Z] with CPython's slice
    clamping; Python integers are unbounded, so no width is modelled. The
    [uuid4] source is a function [nat -> pystr] with a cursor; the
    no-conflict theorems assume it injective, which is what the 122 random
    bits of a UUID make overwhelmingly likely and no program can ensure.

    ** Not modelled

    Logging ([aux.update_log_level], [aux.log_env_details],
    [aux.log_event_and_context], [LOGGER.debug]) only writes log lines: the
    [aux] module is not under src/ and the specification excludes logging
    setup, and the [LOGGER.debug] calls format values (the event, the boto
    responses) whose text the model does not carry. Python's logging never
    raises into the caller on a formatting error, so leaving it out changes
    no result and no state the theorems speak of. IAM, bucket and rule definitions are deployment configuration outside
    the code; the event loop assumes the rule of the data-lake bucket routes
    the copy's event to the analytics function and does not emit events for
    the analytics results Transcribe writes. The services are modelled by what the handlers observe of
    them: the copy stores the object, the job is recorded; transcription
    itself, retries and timeouts of the platform are outside the code. *)

From Stdlib Require Import Ascii String ZArith Lia.
From stdpp Require Export base list gmap strings.
From Stdlib Require Export Ascii ZArith Lia.

(** ** Python strings

    A Python [str] is modelled as a list of characters, so that the list
    library of stdpp ([take], [drop], [app], [length]) applies directly to
    slicing and concatenation. Literals of the source are written [py "..."]. *)

Abbreviation pystr := (list ascii).

Declare Scope py_scope.
Delimit Scope py_scope with py.

Definition py (s : string) : pystr := list_ascii_of_string s.
Arguments py s%_string.

(** [startswith p s] is Python's [s.startswith(p)], the prefix test on
    which [find], [replace] and [split] are built. *)
Fixpoint startswith (p s : pystr) : bool :=
  match p, s with
  | [], _ => true
  | c :: p', d :: s' => bool_decide (c = d) && startswith p' s'
  | _ :: _, [] => false
  end.

(** [occurs sub s]: [sub] is a substring of [s] ([sub in s] in Python). *)
Definition occurs (sub s : pystr) : Prop := exists a b, s = a ++ sub ++ b.

Create HintDb pystr discriminated.
Create Rewrite HintDb pystr_rw.

(** ** Prefix test *)

Lemma startswith_spec (p s : pystr) : startswith p s = true <-> p `prefix_of` s.
Proof.
  revert s; induction p as [|c p IH]; intros [|d s]; simpl.
  - split; [intros _; apply prefix_nil | done].
  - split; [intros _; apply prefix_nil | done].
  - split; [done | intros H; by apply prefix_nil_not in H].
  - rewrite andb_true_iff, bool_decide_eq_true, IH. split.
    + intros [-> ?]. by apply prefix_cons.
    + intros H. apply prefix_cons_inv_1 in H as Hc.
      apply prefix_cons_inv_2 in H. by subst.
Qed.

Lemma startswith_app (p s : pystr) : startswith p (p ++ s) = true.
Proof. apply startswith_spec. by exists s. Qed.

Lemma startswith_false (p s : pystr) :
  startswith p s = false <-> ~ p `prefix_of` s.
Proof. rewrite <- startswith_spec. destruct (startswith p s); intuition congruence. Qed.

#[export] Hint Resolve startswith_app : pystr.
#[export] Hint Rewrite startswith_app : pystr_rw.

(** ** Substrings *)

Lemma occurs_app_l (sub a b : pystr) : occurs sub a -> occurs sub (a ++ b).
Proof. intros (x & y & ->). exists x, (y ++ b). by rewrite !app_assoc. Qed.

Lemma occurs_app_r (sub a b : pystr) : occurs sub b -> occurs sub (a ++ b).
Proof. intros (x & y & ->). exists (a ++ x), y. by rewrite !app_assoc. Qed.

Lemma occurs_prefix_drop (sub s : pystr) (j : nat) :
  sub `prefix_of` drop j s -> occurs sub s.
Proof.
  intros [k Hk]. exists (take j s), k. by rewrite <- Hk, take_drop.
Qed.

(** A substring's characters are characters of the string: a string that
    lacks one character of [sub] does not contain [sub]. *)
Lemma not_occurs_of_char (sub s : pystr) (c : ascii) :
  c ∈ sub -> c ∉ s -> ~ occurs sub s.
Proof.
  intros Hc Hs (a & b & ->). apply Hs. set_solver.
Qed.

(** No occurrence of [sub] starts inside [pre] when the first character of
    [sub] is not a character of [pre]. *)
Lemma no_start_in_prefix (sub pre s : pystr) (c : ascii) (j : nat) :
  head sub = Some c -> c ∉ pre -> j < length pre ->
  ~ sub `prefix_of` drop j (pre ++ s).
Proof.
  intros Hh Hc Hj [k Hk]. destruct sub as [|c' sub]; simplify_eq/=.
  rewrite drop_app_le in Hk by lia.
  destruct (drop j pre) as [|d l] eqn:E.
  - apply (f_equal length) in E. rewrite length_drop in E. simpl in E. lia.
  - simpl in Hk. injection Hk as Hd _. subst d. apply Hc.
    apply (elem_of_suffix (c :: l)); [set_solver|].
    rewrite <- E. apply suffix_drop.
Qed.

(** ** Lengths and arithmetic *)

Lemma length_py_cons (c : ascii) (s : string) :
  length (py (String c s)) = S (length (py s)).
Proof. reflexivity. Qed.

#[export] Hint Rewrite @length_app @length_take @length_drop : pystr_rw.

(** [py_len_simpl] normalises the lengths of a goal: it rewrites lengths of
    concatenations, slices and literals and leaves the arithmetic to [lia]. *)
Ltac py_len_simpl :=
  repeat (autorewrite with pystr_rw in *; simpl length in *).

Ltac py_lia := py_len_simpl; lia.

(** [decide_by_computation] proves a decidable proposition about closed
    terms (membership of a character in a literal, ...) by evaluating its
    decision procedure. *)
Ltac decide_by_computation := apply (bool_decide_unpack _); vm_compute; reflexivity.
