(* ===== verification/PyRuntime.v ===== *)
(** * The Python runtime the handlers run on

    Exceptions, a state-and-exception monad in which a handler's body is
    written, the Python values an inbound event is made of (dicts, lists,
    strings), [os.environ] and list indexing. A raised exception keeps the
    state reached so far: a call that has already changed a service before
    an exception is raised stays done, as in Python. *)

From S2P Require Import Prelude.

(** ** Exceptions

    The exceptions the two handlers can raise: the builtin ones of the
    operations they use ([dict[key]], [list[index]], [str + None], attribute
    access on a non-string) and botocore's two kinds of failure. *)
Inductive exn :=
| KeyError (key : pystr)
| IndexError
| TypeError
| AttributeError
| ValueError
| ParamValidationError (param : pystr)
| ClientError (code : pystr).

#[export] Instance exn_eq_dec : EqDecision exn.
Proof. solve_decision. Defined.

Inductive res (A : Type) :=
| Ok (a : A)
| Exc (e : exn).
Arguments Ok {A} a.
Arguments Exc {A} e.

(** ** The state and exception monad *)

Definition M (σ A : Type) : Type := σ -> σ * res A.

Section Monad.
Context {σ : Type}.

Definition ret {A} (a : A) : M σ A := fun s => (s, Ok a).

Definition bind {A B} (m : M σ A) (f : A -> M σ B) : M σ B :=
  fun s => match m s with
           | (s', Ok a) => f a s'
           | (s', Exc e) => (s', Exc e)
           end.

Definition raise {A} (e : exn) : M σ A := fun s => (s, Exc e).

(** A fallible pure step: its result, without touching the state. *)
Definition lift {A} (r : res A) : M σ A := fun s => (s, r).

Definition gets {A} (f : σ -> A) : M σ A := fun s => (s, Ok (f s)).

Definition modify (f : σ -> σ) : M σ unit := fun s => (f s, Ok tt).

Lemma bind_ret_l {A B} (a : A) (f : A -> M σ B) s : bind (ret a) f s = f a s.
Proof. reflexivity. Qed.

Lemma bind_lift_ok {A B} (a : A) (f : A -> M σ B) s : bind (lift (Ok a)) f s = f a s.
Proof. reflexivity. Qed.

Lemma bind_lift_exc {A B} e (f : A -> M σ B) s : bind (lift (Exc e)) f s = (s, Exc e).
Proof. reflexivity. Qed.

Lemma bind_gets {A B} (g : σ -> A) (f : A -> M σ B) s : bind (gets g) f s = f (g s) s.
Proof. reflexivity. Qed.

Lemma bind_modify {B} (g : σ -> σ) (f : unit -> M σ B) s :
  bind (modify g) f s = f tt (g s).
Proof. reflexivity. Qed.

Lemma bind_assoc {A B C} (m : M σ A) (f : A -> M σ B) (g : B -> M σ C) s :
  bind (bind m f) g s = bind m (fun a => bind (f a) g) s.
Proof. unfold bind. destruct (m s) as [s' [a|e]]; reflexivity. Qed.

Lemma bind_step {A B} (m : M σ A) (f : A -> M σ B) s s' a :
  m s = (s', Ok a) -> bind m f s = f a s'.
Proof. unfold bind. by intros ->. Qed.

Lemma bind_step_exc {A B} (m : M σ A) (f : A -> M σ B) s s' e :
  m s = (s', Exc e) -> bind m f s = (s', Exc e).
Proof. unfold bind. by intros ->. Qed.
End Monad.

Create Rewrite HintDb pymonad.
#[export] Hint Rewrite @bind_ret_l @bind_lift_ok @bind_lift_exc @bind_gets @bind_modify
  @bind_assoc : pymonad.

Notation "x <- m ;; k" := (bind m (fun x => k))
  (at level 100, m at next level, right associativity) : py_scope.
Notation "m ;;; k" := (bind m (fun _ => k))
  (at level 100, right associativity) : py_scope.

(** [run_m] evaluates a handler's body step by step: it rewrites with the
    monad's equations and unfolds what the caller names. *)
Ltac run_m := repeat (autorewrite with pymonad; simpl).

(** ** Python values

    The inbound event is a JSON document, which the Lambda runtime hands to
    the handler as nested dicts, lists and strings. *)
#[warnings="-register-all"]
Inductive pyval :=
| PNone
| PStr (s : pystr)
| PInt (z : Z)
| PList (l : list pyval)
| PDict (d : list (pystr * pyval)).

Fixpoint dict_lookup (d : list (pystr * pyval)) (k : pystr) : option pyval :=
  match d with
  | [] => None
  | (k', v) :: d' => if bool_decide (k = k') then Some v else dict_lookup d' k
  end.

(** [getitem v k] is [v[k]] for a string key: a dict answers or raises
    [KeyError]; any other value raises [TypeError]. *)
Definition getitem (v : pyval) (k : pystr) : res pyval :=
  match v with
  | PDict d => match dict_lookup d k with Some x => Ok x | None => Exc (KeyError k) end
  | _ => Exc TypeError
  end.

(** A value used where the code calls a [str] method on it: anything but a
    string raises [AttributeError]. *)
Definition str_method_self (v : pyval) : res pystr :=
  match v with PStr s => Ok s | _ => Exc AttributeError end.

(** A value as the right operand of [str + x]: a string concatenates,
    anything else raises [TypeError]. *)
Definition str_operand (v : pyval) : res pystr :=
  match v with PStr s => Ok s | _ => Exc TypeError end.

(** An operand of [str + x]: a [str] concatenates; [None] (what
    [os.environ.get] returns for an unset variable) raises [TypeError]. *)
Definition concat_operand (o : option pystr) : res pystr :=
  match o with Some s => Ok s | None => Exc TypeError end.

Lemma getitem_not_client (v : pyval) (k code : pystr) : getitem v k <> Exc (ClientError code).
Proof. unfold getitem. destruct v; try discriminate. by destruct (dict_lookup _ _). Qed.

(** ** Lists *)

(** [py_list_index l i] is [l[i]], negative indices counting from the end. *)
Definition py_list_index {A} (l : list A) (i : Z) : res A :=
  let j := if (i <? 0)%Z then (i + Z.of_nat (length l))%Z else i in
  if (j <? 0)%Z then Exc IndexError
  else match l !! Z.to_nat j with Some x => Ok x | None => Exc IndexError end.

Lemma py_list_index_in {A} (l : list A) (i : nat) x :
  l !! i = Some x -> py_list_index l (Z.of_nat i) = Ok x.
Proof.
  intros H. unfold py_list_index.
  destruct (Z.ltb_spec (Z.of_nat i) 0); [lia|].
  destruct (Z.ltb_spec (Z.of_nat i) 0); [lia|]. by rewrite Nat2Z.id, H.
Qed.

Lemma py_list_index_out {A} (l : list A) (i : nat) :
  length l <= i -> py_list_index l (Z.of_nat i) = Exc IndexError.
Proof.
  intros H. unfold py_list_index.
  destruct (Z.ltb_spec (Z.of_nat i) 0); [lia|].
  destruct (Z.ltb_spec (Z.of_nat i) 0); [lia|].
  rewrite Nat2Z.id. by rewrite (proj2 (lookup_ge_None l i)) by lia.
Qed.

(** ** The process environment *)

Abbreviation environ := (gmap pystr pystr).

(** [os.environ[k]]: the value, or [KeyError]. *)
Definition environ_getitem (env : environ) (k : pystr) : res pystr :=
  match env !! k with Some v => Ok v | None => Exc (KeyError k) end.

(** [os.environ.get(k)]: the value or [None]. *)
Definition environ_get (env : environ) (k : pystr) : option pystr := env !! k.

(** ** The Lambda context object *)

Record lambda_context := LambdaContext {
  invoked_function_arn : pystr;
}.

(** ** Relations a computation preserves

    [preserves R m]: whatever [m] does, the state it ends in (on a result or
    on an exception) is related by [R] to the state it started from. For a
    preorder [R] this composes through [bind], so a handler preserves [R]
    when each of its steps does. *)
Definition preserves {σ A} (R : relation σ) (m : M σ A) : Prop :=
  forall s, R s (fst (m s)).

Section Preserves.
Context {σ : Type} (R : relation σ) `{!PreOrder R}.

Lemma preserves_ret {A} (a : A) : preserves R (ret a).
Proof. intros s. simpl. reflexivity. Qed.

Lemma preserves_lift {A} (r : res A) : preserves R (lift r).
Proof. intros s. simpl. reflexivity. Qed.

Lemma preserves_gets {A} (g : σ -> A) : preserves R (gets g).
Proof. intros s. simpl. reflexivity. Qed.

Lemma preserves_raise {A} (e : exn) : preserves R (raise (A := A) e).
Proof. intros s. simpl. reflexivity. Qed.

Lemma preserves_bind {A B} (m : M σ A) (f : A -> M σ B) :
  preserves R m -> (forall a, preserves R (f a)) -> preserves R (bind m f).
Proof.
  intros Hm Hf s. unfold bind. specialize (Hm s).
  destruct (m s) as [s1 [a|e]] eqn:E; simpl in *; [|done].
  etrans; [exact Hm|]. apply Hf.
Qed.
End Preserves.

#[export] Hint Resolve preserves_ret preserves_lift preserves_gets preserves_raise : pystr.

(** [solve_preserves] takes a handler apart with [preserves_bind] and closes
    the pure steps; the effectful steps are left to the caller's lemmas. *)
Ltac solve_preserves :=
  repeat first
    [ apply preserves_bind; [..|intros ?]
    | apply preserves_ret | apply preserves_lift | apply preserves_gets
    | apply preserves_raise | typeclasses eauto ].
