(* ===== verification/PyStr.v ===== *)
(** * The Python string operations the handlers use

    [str.find], slicing [s[a:b]], [str.replace] and [str.split], each
    written the way CPython defines it for the arguments the code passes
    (no start/end arguments to [find], no count to [replace], a step of 1
    in slices), with the lemmas that characterise them. *)

From S2P Require Import Prelude PyRuntime.

(** ** [str.find] *)

(** [find_nat sub s] is the first index at which [sub] starts in [s]. *)
Fixpoint find_nat (sub s : pystr) : option nat :=
  if startswith sub s then Some 0
  else match s with
       | [] => None
       | _ :: s' => S <$> find_nat sub s'
       end.

(** [s.find(sub)]: the lowest index of [sub] in [s], or [-1]. *)
Definition py_find (s sub : pystr) : Z :=
  match find_nat sub s with Some i => Z.of_nat i | None => (-1)%Z end.

(** ** Slicing

    [adjust_index] is CPython's [PySlice_AdjustIndices] for a step of 1: a
    negative index counts from the end, and the result is clamped to
    [0, len]. An empty or inverted range gives the empty string. *)
Definition adjust_index (len i : Z) : Z :=
  if (i <? 0)%Z then Z.max 0 (i + len) else Z.min i len.

Definition py_slice (s : pystr) (lo hi : option Z) : pystr :=
  let n := Z.of_nat (length s) in
  let a := adjust_index n (default 0%Z lo) in
  let b := adjust_index n (default n hi) in
  take (Z.to_nat (b - a)) (drop (Z.to_nat a) s).

(** ** [str.replace]

    [replace_go] scans left to right; at a match it emits [new] and skips the
    rest of the match ([skip] counts the characters still to skip), so that
    matches do not overlap. The recursion is structural on the string. *)
Fixpoint replace_go (old new : pystr) (skip : nat) (s : pystr) : pystr :=
  match s with
  | [] => []
  | c :: s' =>
      match skip with
      | S k => replace_go old new k s'
      | 0 => if startswith old s then new ++ replace_go old new (length old - 1) s'
             else c :: replace_go old new 0 s'
      end
  end.

(** [s.replace(old, new)]; an empty [old] inserts [new] before every
    character and at the end, as CPython does. *)
Definition py_replace (s old new : pystr) : pystr :=
  match old with
  | [] => new ++ mjoin (map (fun c => c :: new) s)
  | _ => replace_go old new 0 s
  end.

(** ** [str.split]

    [s.split(sep)] cuts [s] at each occurrence of [sep], left to right. The
    recursion goes through [find_nat] and is bounded by fuel; the fuel given
    by [py_split], one more than the length of [s], is enough (see
    [split_fuel_enough]). An empty separator raises [ValueError]. *)
Fixpoint split_fuel (fuel : nat) (sep s : pystr) : list pystr :=
  match fuel with
  | 0 => [s]
  | S f =>
      match find_nat sep s with
      | Some i => take i s :: split_fuel f sep (drop (i + length sep) s)
      | None => [s]
      end
  end.

Definition py_split (s sep : pystr) : res (list pystr) :=
  match sep with
  | [] => Exc ValueError
  | _ => Ok (split_fuel (S (length s)) sep s)
  end.

(** ** Lemmas on [find] *)

Lemma find_nat_some (sub s : pystr) (i : nat) :
  find_nat sub s = Some i ->
  sub `prefix_of` drop i s /\ forall j, j < i -> ~ sub `prefix_of` drop j s.
Proof.
  revert i; induction s as [|c s IH]; intros i; simpl.
  - destruct (startswith sub []) eqn:E; intros; simplify_eq.
    split; [by apply startswith_spec | lia].
  - destruct (startswith sub (c :: s)) eqn:E; intros H; simplify_eq.
    + split; [by apply startswith_spec | lia].
    + destruct (find_nat sub s) as [i'|] eqn:F; simplify_eq/=.
      destruct (IH i' eq_refl) as [Hp Hj]. split; [done|].
      intros [|j] ?; simpl; [by apply startswith_false|]. apply Hj; lia.
Qed.

Lemma find_nat_at (sub s : pystr) (i : nat) :
  sub `prefix_of` drop i s -> (forall j, j < i -> ~ sub `prefix_of` drop j s) ->
  find_nat sub s = Some i.
Proof.
  revert s; induction i as [|i IH]; intros s Hp Hj.
  - rewrite drop_0 in Hp. apply startswith_spec in Hp. destruct s; simpl; by rewrite Hp.
  - destruct s as [|c s].
    + simpl in Hp. by destruct (Hj 0 ltac:(lia)).
    + simpl. rewrite (proj2 (startswith_false _ _)) by apply (Hj 0 ltac:(lia)).
      rewrite IH; [done..|]. intros j ?. apply (Hj (S j)). lia.
Qed.

Lemma find_nat_startswith (sub s : pystr) :
  startswith sub s = true -> find_nat sub s = Some 0.
Proof. intros H. destruct s; simpl; by rewrite H. Qed.

Lemma find_nat_none (sub s : pystr) : find_nat sub s = None <-> ~ occurs sub s.
Proof.
  split.
  - intros H (a & b & ->). revert H. induction a as [|c a IH]; simpl.
    + by rewrite find_nat_startswith by apply startswith_app.
    + destruct (startswith _ _); [done|]. by destruct (find_nat sub (a ++ sub ++ b)).
  - intros Hn. induction s as [|c s IH]; simpl.
    + destruct (startswith sub []) eqn:E; [|done].
      apply startswith_spec in E. destruct Hn. exists [], []. by apply prefix_nil_inv in E as ->.
    + destruct (startswith sub (c :: s)) eqn:E.
      * apply startswith_spec in E as [k Hk]. destruct Hn. by exists [], k.
      * rewrite IH; [done|]. intros (a & b & ->). apply Hn. by exists (c :: a), b.
Qed.

(** The first occurrence of a marker whose last character appears nowhere
    else in it is the one after a prefix free of the marker: an earlier
    occurrence would have to end inside the marker, on a character that is
    not its last. *)
Lemma find_nat_after_prefix (body : pystr) (c : ascii) (pre suf : pystr) :
  c ∉ body -> ~ occurs (body ++ [c]) pre ->
  find_nat (body ++ [c]) (pre ++ (body ++ [c]) ++ suf) = Some (length pre).
Proof.
  intros Hc Hpre. apply find_nat_at.
  { rewrite drop_app_length. by exists suf. }
  intros j Hj [k Hk]. set (sub := body ++ [c]) in *.
  rewrite drop_app_le in Hk by lia.
  apply (f_equal (take (length sub))) in Hk. rewrite take_app_length in Hk.
  destruct (decide (j + length sub <= length pre)) as [Hle|Hgt].
  - apply Hpre, (occurs_prefix_drop _ _ j).
    rewrite take_app_le in Hk by (rewrite length_drop; lia).
    rewrite <- Hk. apply prefix_take.
  - rewrite take_app, length_drop, take_app_le in Hk by lia.
    assert (Hm : take (length sub - (length pre - j)) sub
                 = take (length sub - (length pre - j)) body).
    { subst sub. rewrite take_app_le; [done|]. rewrite length_app in Hgt |- *. simpl in *. lia. }
    rewrite Hm in Hk.
    destruct (exists_last (l := take (length sub - (length pre - j)) body)) as (t & e & Ht).
    { intros E. apply (f_equal length) in E. rewrite length_take in E. subst sub.
      rewrite length_app in *. simpl in *. lia. }
    rewrite Ht, app_assoc in Hk. subst sub. apply app_inj_tail in Hk as [_ ->].
    apply Hc. assert (Hin : c ∈ take (length (body ++ [c]) - (length pre - j)) body)
      by (rewrite Ht; set_solver).
    apply elem_of_take in Hin as (i & Hi & _). by eapply list_elem_of_lookup_2.
Qed.

Lemma py_find_after_prefix (body : pystr) (c : ascii) (pre suf : pystr) :
  c ∉ body -> ~ occurs (body ++ [c]) pre ->
  py_find (pre ++ (body ++ [c]) ++ suf) (body ++ [c]) = Z.of_nat (length pre).
Proof. intros. unfold py_find. by rewrite find_nat_after_prefix. Qed.

Lemma py_find_absent (s sub : pystr) : ~ occurs sub s -> py_find s sub = (-1)%Z.
Proof. intros H. unfold py_find. by rewrite (proj2 (find_nat_none _ _) H). Qed.

(** ** Lemmas on slices *)

Lemma py_slice_range (s : pystr) (a b : Z) :
  (0 <= a <= b)%Z ->
  py_slice s (Some a) (Some b) = take (Z.to_nat (b - a)) (drop (Z.to_nat a) s).
Proof.
  intros [Ha Hab]. unfold py_slice, adjust_index; simpl.
  destruct (Z.ltb_spec a 0), (Z.ltb_spec b 0); try lia.
  destruct (decide (b <= Z.of_nat (length s))%Z).
  - by replace (Z.min b _) with b by lia; replace (Z.min a _) with a by lia.
  - replace (Z.min b _) with (Z.of_nat (length s)) by lia.
    destruct (decide (a <= Z.of_nat (length s))%Z).
    + replace (Z.min a _) with a by lia.
      rewrite !take_ge; [done | rewrite length_drop; lia..].
    + replace (Z.min a _) with (Z.of_nat (length s)) by lia.
      rewrite !drop_ge by lia. by rewrite !take_nil.
Qed.

Lemma py_slice_from (s : pystr) (a : Z) :
  (0 <= a)%Z -> py_slice s (Some a) None = drop (Z.to_nat a) s.
Proof.
  intros Ha. unfold py_slice, adjust_index; simpl.
  destruct (Z.ltb_spec a 0), (Z.ltb_spec (Z.of_nat (length s)) 0); try lia.
  destruct (decide (a <= Z.of_nat (length s))%Z).
  - replace (Z.min a _) with a by lia. rewrite take_ge; [done|]. rewrite length_drop. lia.
  - replace (Z.min a _) with (Z.of_nat (length s)) by lia.
    rewrite !drop_ge by lia. apply take_nil.
Qed.

Lemma py_slice_to (s : pystr) (b : Z) :
  (0 <= b)%Z -> py_slice s None (Some b) = take (Z.to_nat b) s.
Proof.
  intros Hb. unfold py_slice, adjust_index; simpl.
  destruct (Z.ltb_spec 0 0), (Z.ltb_spec b 0); try lia.
  replace (Z.min 0 _) with 0%Z by lia. rewrite drop_0.
  destruct (decide (b <= Z.of_nat (length s))%Z).
  - by replace (Z.min b _ - _)%Z with b by lia.
  - replace (Z.min b _ - _)%Z with (Z.of_nat (length s)) by lia.
    rewrite !take_ge; [done|lia..].
Qed.

(** ** Lemmas on [replace] *)

Section Replace.
Context (old new : pystr).
Hypothesis old_nonempty : old <> [].

Lemma replace_go_skip (k : nat) (s : pystr) :
  replace_go old new k s = replace_go old new 0 (drop k s).
Proof.
  revert k; induction s as [|c s IH]; intros [|k]; simpl; [done..|].
  apply IH.
Qed.

Lemma py_replace_nil : py_replace [] old new = [].
Proof. by destruct old. Qed.

Lemma py_replace_match (s : pystr) :
  py_replace (old ++ s) old new = new ++ py_replace s old new.
Proof.
  destruct old as [|o old'] eqn:E; [done|]. unfold py_replace. simpl.
  rewrite bool_decide_eq_true_2, startswith_app by done. simpl.
  rewrite Nat.sub_0_r, <- E, replace_go_skip. by rewrite E, drop_app_length.
Qed.

Lemma py_replace_nomatch (c : ascii) (s : pystr) :
  ~ old `prefix_of` (c :: s) -> py_replace (c :: s) old new = c :: py_replace s old new.
Proof.
  intros H. unfold py_replace. destruct old as [|o old'] eqn:E; [done|]. rewrite <- E in H |- *.
  change (replace_go old new 0 (c :: s)) with
    (if startswith old (c :: s) then new ++ replace_go old new (length old - 1) s
     else c :: replace_go old new 0 s).
  by rewrite (proj2 (startswith_false _ _) H).
Qed.

(** A prefix in which no match starts is copied unchanged. *)
Lemma py_replace_app_l (pre s : pystr) :
  (forall j, j < length pre -> ~ old `prefix_of` drop j (pre ++ s)) ->
  py_replace (pre ++ s) old new = pre ++ py_replace s old new.
Proof.
  induction pre as [|c pre IH]; intros H; [done|]. simpl.
  rewrite py_replace_nomatch by apply (H 0 ltac:(simpl; lia)).
  rewrite IH; [done|]. intros j Hj. apply (H (S j)). simpl. lia.
Qed.

Lemma py_replace_not_occurs (s : pystr) : ~ occurs old s -> py_replace s old new = s.
Proof.
  intros H. rewrite <- (app_nil_r s), py_replace_app_l, py_replace_nil; [done|].
  intros j _ Hp. apply H. rewrite app_nil_r in Hp. by eapply occurs_prefix_drop.
Qed.

(** The first occurrence of [old], after a prefix that lacks the first
    character of [old], is replaced, and the scan goes on after it. *)
Lemma py_replace_first (pre s : pystr) (c : ascii) :
  head old = Some c -> c ∉ pre ->
  py_replace (pre ++ old ++ s) old new = pre ++ new ++ py_replace s old new.
Proof.
  intros Hh Hc. rewrite py_replace_app_l, py_replace_match; [done|].
  intros j Hj. by eapply no_start_in_prefix.
Qed.

(** A string that ends with the only occurrence of [old], which no
    earlier character starts, has that occurrence replaced. *)
Lemma py_replace_suffix (pre : pystr) (c : ascii) :
  head old = Some c -> c ∉ pre -> py_replace (pre ++ old) old new = pre ++ new.
Proof.
  intros Hh Hc. rewrite <- (app_nil_r old) at 1.
  by rewrite (py_replace_first pre [] c), py_replace_nil, app_nil_r.
Qed.

(** A prefix of [l ++ t] no longer than [l] is a prefix of [l]. *)
Lemma prefix_of_app_short (l t : pystr) :
  old `prefix_of` l ++ t -> length old <= length l -> old `prefix_of` l.
Proof.
  intros [k Hk] Hlen.
  assert (Ht : take (length old) (l ++ t) = old) by (rewrite Hk; apply take_app_length).
  rewrite take_app_le in Ht by done. rewrite <- Ht. apply prefix_take.
Qed.

(** [str.replace] distributes over [s ++ t] when no occurrence of [old]
    that starts in [s] runs into [t]: the scan reaches the end of [s]
    without a skip left over. *)
Lemma replace_go_app (k : nat) (s t : pystr) :
  k <= length s ->
  (forall j, j < length s -> old `prefix_of` drop j (s ++ t) -> j + length old <= length s) ->
  replace_go old new k (s ++ t) = replace_go old new k s ++ replace_go old new 0 t.
Proof.
  revert k. induction s as [|c s IH]; intros k Hk Hx; simpl in Hk.
  { by replace k with 0 by lia. }
  assert (Hx' : forall j, j < length s -> old `prefix_of` drop j (s ++ t) ->
                j + length old <= length s).
  { intros j Hj Hp. assert (S j + length old <= S (length s)); [|lia].
    apply (Hx (S j)); simpl; [lia | done]. }
  destruct k as [|k]; simpl; [|apply IH; [lia | done]].
  assert (Hs : startswith old (c :: s ++ t) = startswith old (c :: s)).
  { change (c :: s ++ t) with ((c :: s) ++ t).
    destruct (startswith old (c :: s)) eqn:E2.
    - apply startswith_spec. apply startswith_spec in E2. by apply prefix_app_r.
    - apply startswith_false. intros Hp. apply startswith_false in E2. apply E2.
      apply (prefix_of_app_short _ t); [done|]. apply (Hx 0); simpl; [lia|done]. }
  rewrite Hs. destruct (startswith old (c :: s)) eqn:E.
  - rewrite IH; [by rewrite app_assoc | | done]. apply startswith_spec in E.
    apply prefix_length in E. simpl in E. lia.
  - rewrite IH; [done|lia|done].
Qed.

Lemma py_replace_self : py_replace old old new = new.
Proof.
  rewrite <- (app_nil_r old) at 1. by rewrite py_replace_match, py_replace_nil, app_nil_r.
Qed.

Lemma py_replace_app (s t : pystr) :
  (forall j, j < length s -> old `prefix_of` drop j (s ++ t) -> j + length old <= length s) ->
  py_replace (s ++ t) old new = py_replace s old new ++ py_replace t old new.
Proof.
  intros Hx. unfold py_replace. destruct old as [|o old'] eqn:E; [done|].
  rewrite <- E in Hx |- *. apply replace_go_app; [lia | done].
Qed.

(** Two ways to rule out a match running from [s] into [t]: the last
    character of [old] is not a character of [t], or [t] starts with a
    character that [old] has only in front. *)
Lemma no_match_across_last (s t body : pystr) (c : ascii) :
  old = body ++ [c] -> c ∉ t ->
  forall j, j < length s -> old `prefix_of` drop j (s ++ t) -> j + length old <= length s.
Proof.
  intros Hold Hc j Hj [k Hk]. destruct (decide (j + length old <= length s)) as [|Hn]; [done|].
  exfalso. apply Hc. rewrite Hold, length_app in Hn. simpl in Hn.
  assert (Hl : (s ++ t) !! (j + length body) = Some c).
  { rewrite <- lookup_drop, Hk, Hold, <- app_assoc, lookup_app_r by lia.
    by rewrite Nat.sub_diag. }
  rewrite lookup_app_r in Hl by lia. by eapply list_elem_of_lookup_2.
Qed.

Lemma no_match_across_head (s t : pystr) (c : ascii) :
  head t = Some c -> c ∉ drop 1 old ->
  forall j, j < length s -> old `prefix_of` drop j (s ++ t) -> j + length old <= length s.
Proof.
  intros Ht Hc j Hj [k Hk]. destruct (decide (j + length old <= length s)) as [|Hn]; [done|].
  exfalso. apply Hc. destruct t as [|d t]; simplify_eq/=.
  assert (Hl : (s ++ c :: t) !! (j + (length s - j)) = Some c).
  { rewrite lookup_app_r by lia. by replace (j + (length s - j) - length s) with 0 by lia. }
  rewrite <- lookup_drop, Hk, lookup_app_l in Hl by lia.
  apply (list_elem_of_lookup_2 _ (length s - j - 1)). rewrite lookup_drop.
  by replace (1 + (length s - j - 1)) with (length s - j) by lia.
Qed.

(** A third: some character [c] of [old], at its first position [p] in
    [old], occurs neither in [s] nor in [t] before position [p]. *)
Lemma no_match_across_first (s t : pystr) (c : ascii) (p : nat) :
  old !! p = Some c -> c ∉ s -> (forall i, i < p -> t !! i <> Some c) ->
  forall j, j < length s -> old `prefix_of` drop j (s ++ t) -> j + length old <= length s.
Proof.
  intros Hp Hs Ht j Hj [k Hk]. destruct (decide (j + length old <= length s)) as [|Hn]; [done|].
  exfalso. pose proof (lookup_lt_Some _ _ _ Hp) as Hplt.
  assert (Hl : (s ++ t) !! (j + p) = Some c).
  { by rewrite <- lookup_drop, Hk, lookup_app_l by lia. }
  destruct (decide (j + p < length s)).
  - rewrite lookup_app_l in Hl by lia. apply Hs. by eapply list_elem_of_lookup_2.
  - rewrite lookup_app_r in Hl by lia. apply (Ht (j + p - length s)); [lia|done].
Qed.
End Replace.

(** ** Lemmas on [split] *)

Lemma find_nat_some_length (sep s : pystr) (i : nat) :
  sep <> [] -> find_nat sep s = Some i -> i + length sep <= length s.
Proof.
  intros Hsep H. apply find_nat_some in H as [[k Hk] _].
  destruct sep; [done|].
  apply (f_equal length) in Hk. rewrite length_drop, length_app in Hk. simpl in *. lia.
Qed.

(** The fuel of [py_split] is enough: any larger fuel gives the same
    pieces, because every cut consumes the nonempty separator. *)
Lemma split_fuel_enough (sep s : pystr) (f : nat) :
  sep <> [] -> length s < f -> split_fuel f sep s = split_fuel (S (length s)) sep s.
Proof.
  intros Hsep. revert s f.
  induction s as [s IH] using (induction_ltof1 _ (@length ascii)); unfold ltof in IH.
  intros [|f] Hf; [lia|]. simpl.
  destruct (find_nat sep s) as [i|] eqn:E; [|done]. f_equal.
  apply find_nat_some_length in E; [|done].
  assert (Hlt : length (drop (i + length sep) s) < length s).
  { rewrite length_drop. destruct sep; [done|]. simpl in *. lia. }
  rewrite (IH _ Hlt f) by lia. by rewrite (IH _ Hlt (length s)) by lia.
Qed.

(** The index the ingestion handler slices from, [find + len(sub)], is never
    negative: [find] answers [-1] only for a nonempty [sub]. *)
Lemma py_find_end_nonneg (s sub : pystr) : (0 <= py_find s sub + Z.of_nat (length sub))%Z.
Proof.
  unfold py_find. destruct (find_nat sub s) eqn:E; [lia|].
  destruct sub; [|simpl; lia]. destruct s; discriminate.
Qed.
