(* ===== verification/AuxPaths.v ===== *)
(** * The path conventions shared by the two handlers ([aux_paths])

    Both handlers import a module [aux_paths] that is not part of the
    sources: its four constants are the contract between them, since the
    key written by the ingestion handler is the key read by the analytics
    handler. The constants are an interface here, the class [AuxPaths]; the
    handlers are written against it, and their theorems assume only the laws
    of [AuxPathsOk]. The instance [aux_paths_workshop] gives the values the
    specification names, and discharges the laws by computation. *)

From S2P Require Import Prelude PyStr.

Class AuxPaths := {
  PATH_CONNECT_CALLRECORDINGS : pystr;
  PATH_CONNECT_CALLRECORDINGS_RAW : pystr;
  PATH_TRANSCRIBE_CALLANALYTICS_RAW : pystr;
  PATH_CALL_ANALYTICS_RESULT : pystr;
}.

(** The characters of the variable part of a Connect recording key once the
    ingestion handler has rewritten it: digits, lower-case hex (contact ids
    are UUIDs), the separators [/ - _ T :] and the [Z.wav] suffix. *)
Definition recording_alphabet : pystr := py "0123456789abcdef/-_T:Z.wav".

(** The laws the two handlers rely on, each decidable:
    - the marker ends with a character that occurs nowhere else in it, so
      the first occurrence of the marker in a key is the one after the
      Connect prefix;
    - the transcription prefix has no ['.'], so that no [".wav"] match
      starts in it;
    - the raw-recordings prefix has a character outside
      [recording_alphabet], so it does not occur in a rewritten suffix;
    - the raw-recordings prefix ends with a character that [".wav"] does
      not have, so no occurrence of it runs into the extension;
    - the result suffix has no ['.'], and the transcription prefix has a
      character outside [recording_alphabet]: the analytics rewriting of a
      data-lake key can be undone. *)
Class AuxPathsOk `{AuxPaths} : Prop := {
  marker_last_unique : exists body c,
    PATH_CONNECT_CALLRECORDINGS = body ++ [c] /\ c ∉ body;
  transcribe_prefix_no_dot : "."%char ∉ PATH_TRANSCRIBE_CALLANALYTICS_RAW;
  raw_prefix_foreign_char : exists c,
    c ∈ PATH_CONNECT_CALLRECORDINGS_RAW /\ c ∉ recording_alphabet;
  raw_prefix_last_not_ext : exists body c,
    PATH_CONNECT_CALLRECORDINGS_RAW = body ++ [c] /\ c ∉ py ".wav";
  result_suffix_no_dot : "."%char ∉ PATH_CALL_ANALYTICS_RESULT;
  transcribe_prefix_foreign_char : exists c,
    c ∈ PATH_TRANSCRIBE_CALLANALYTICS_RAW /\ c ∉ recording_alphabet;
}.

(** The values of the specification. *)
#[export] Instance aux_paths_workshop : AuxPaths := {
  PATH_CONNECT_CALLRECORDINGS := py "CallRecordings/";
  PATH_CONNECT_CALLRECORDINGS_RAW := py "call-recordings-raw/";
  PATH_TRANSCRIBE_CALLANALYTICS_RAW := py "transcribe-call-analytics-raw/";
  PATH_CALL_ANALYTICS_RESULT := py "-call-analytics-result";
}.

#[export] Instance aux_paths_workshop_ok : @AuxPathsOk aux_paths_workshop.
Proof.
  split.
  - exists (py "CallRecordings"), "/"%char. split; [reflexivity|]. decide_by_computation.
  - decide_by_computation.
  - exists "l"%char. split; decide_by_computation.
  - exists (py "call-recordings-raw"), "/"%char. split; [reflexivity | decide_by_computation].
  - decide_by_computation.
  - exists "r"%char. split; decide_by_computation.
Qed.
