(* ===== verification/RecordingKeys.v ===== *)
(** * The key conventions, stated abstractly

    Amazon Connect stores a call recording under
    [<prefix>CallRecordings/YYYY/MM/DD/<contact-id>_YYYYMMDDTHH:MM_UTC.wav],
    the contact id being a 36-character UUID. The pipeline promises to copy
    it to [call-recordings-raw/YYYY/MM/DD/<contact-id>_YYYY-MM-DDTHH:MM:00Z.wav]
    and to write the analytics result for that copy under
    [transcribe-call-analytics-raw/.../<contact-id>_...:00Z-call-analytics-result.json].
    This file states that contract without any slicing: a [recording] is
    the fields of a key, and [connect_key], [datalake_key] and
    [analytics_key] render them. The handler files prove that their
    slicing and replacing implement these renderings. *)

From S2P Require Import Prelude PyStr AuxPaths.

Record recording := Recording {
  rec_prefix : pystr;
  rec_dir_year : pystr; rec_dir_month : pystr; rec_dir_day : pystr;
  rec_contact_id : pystr;
  rec_year : pystr; rec_month : pystr; rec_day : pystr;
  rec_hour : pystr; rec_minute : pystr;
}.

(** ** Character classes *)

Definition all_in (alphabet s : pystr) : bool := forallb (fun c => bool_decide (c ∈ alphabet)) s.

Definition digits : pystr := py "0123456789".
Definition uuid_chars : pystr := py "0123456789abcdef-".

(** The characters a rewritten suffix is made of; [recording_alphabet] adds
    the [.wav] of the extension. *)
Definition suffix_alphabet : pystr := py "0123456789abcdef/-_T:Z".

Definition fixed_digits (n : nat) (s : pystr) : bool := (length s =? n) && all_in digits s.

(** A well-formed recording: a 4-2-2 digit date directory, a UUID, and a
    4-2-2 digit date with a 2-2 digit time. *)
Definition recording_wf (r : recording) : bool :=
  fixed_digits 4 (rec_dir_year r) && fixed_digits 2 (rec_dir_month r)
  && fixed_digits 2 (rec_dir_day r)
  && (length (rec_contact_id r) =? 36) && all_in uuid_chars (rec_contact_id r)
  && fixed_digits 4 (rec_year r) && fixed_digits 2 (rec_month r) && fixed_digits 2 (rec_day r)
  && fixed_digits 2 (rec_hour r) && fixed_digits 2 (rec_minute r).

(** ** Renderings *)

Section Render.
Context `{AuxPaths}.

(** The part of a Connect key after the marker. *)
Definition connect_suffix (r : recording) : pystr :=
  rec_dir_year r ++ py "/" ++ rec_dir_month r ++ py "/" ++ rec_dir_day r ++ py "/"
  ++ rec_contact_id r ++ py "_" ++ rec_year r ++ rec_month r ++ rec_day r ++ py "T"
  ++ rec_hour r ++ py ":" ++ rec_minute r ++ py "_UTC.wav".

Definition connect_key (r : recording) : pystr :=
  rec_prefix r ++ PATH_CONNECT_CALLRECORDINGS ++ connect_suffix r.

(** The stem shared by the data-lake and the analytics keys: the date
    directory, the contact id and the ISO 8601 timestamp. *)
Definition iso_stem (r : recording) : pystr :=
  rec_dir_year r ++ py "/" ++ rec_dir_month r ++ py "/" ++ rec_dir_day r ++ py "/"
  ++ rec_contact_id r ++ py "_" ++ rec_year r ++ py "-" ++ rec_month r ++ py "-"
  ++ rec_day r ++ py "T" ++ rec_hour r ++ py ":" ++ rec_minute r ++ py ":00Z".

Definition datalake_key (r : recording) : pystr :=
  PATH_CONNECT_CALLRECORDINGS_RAW ++ iso_stem r ++ py ".wav".

Definition analytics_key (r : recording) : pystr :=
  PATH_TRANSCRIBE_CALLANALYTICS_RAW ++ iso_stem r ++ PATH_CALL_ANALYTICS_RESULT ++ py ".json".
End Render.

(** A recording as Connect names it, used to instantiate the theorems. *)
Definition sample_recording : recording :=
  Recording (py "connect/speechai-workshop/") (py "2022") (py "06") (py "01")
    (py "0a1b2c3d-4e5f-6789-abcd-ef0123456789")
    (py "2022") (py "06") (py "01") (py "13") (py "26").

(** ** Lemmas *)

Lemma all_in_app (alphabet a b : pystr) :
  all_in alphabet (a ++ b) = all_in alphabet a && all_in alphabet b.
Proof. apply forallb_app. Qed.

Lemma all_in_spec (alphabet s : pystr) : all_in alphabet s = true <-> forall c, c ∈ s -> c ∈ alphabet.
Proof.
  unfold all_in. rewrite forallb_forall. split.
  - intros H c Hc. apply list_elem_of_In in Hc. by apply (bool_decide_eq_true_1 _), H.
  - intros H c Hc. apply bool_decide_eq_true_2, H. by apply list_elem_of_In.
Qed.

Lemma all_in_weaken (a1 a2 s : pystr) : a1 ⊆ a2 -> all_in a1 s = true -> all_in a2 s = true.
Proof. rewrite !all_in_spec. intros Hsub H c Hc. by apply Hsub, H. Qed.

Lemma all_in_not_elem (alphabet s : pystr) (c : ascii) :
  all_in alphabet s = true -> c ∉ alphabet -> c ∉ s.
Proof. rewrite all_in_spec. intros H Hc Hs. by apply Hc, H. Qed.

#[export] Hint Rewrite all_in_app : pystr_rw.

(** The facts of [recording_wf], one per field. *)
Lemma recording_wf_spec (r : recording) :
  recording_wf r = true ->
  length (rec_dir_year r) = 4 /\ length (rec_dir_month r) = 2 /\ length (rec_dir_day r) = 2
  /\ length (rec_contact_id r) = 36 /\ length (rec_year r) = 4 /\ length (rec_month r) = 2
  /\ length (rec_day r) = 2 /\ length (rec_hour r) = 2 /\ length (rec_minute r) = 2
  /\ all_in suffix_alphabet (iso_stem r) = true.
Proof.
  unfold recording_wf, fixed_digits, iso_stem.
  rewrite !andb_true_iff, !Nat.eqb_eq. intros H. destruct_and!.
  do 9 (split; [done|]).
  assert (Hd : digits ⊆ suffix_alphabet) by decide_by_computation.
  assert (Hu : uuid_chars ⊆ suffix_alphabet) by decide_by_computation.
  rewrite !all_in_app, !andb_true_iff.
  repeat split; first
    [ reflexivity
    | apply (all_in_weaken digits); [exact Hd | assumption]
    | apply (all_in_weaken uuid_chars); [exact Hu | assumption] ].
Qed.
