(* ===== verification/AwsServices.v ===== *)
(** * The AWS services the handlers call, and the world they act on

    The handlers' effects go to three collaborators outside the sources:
    Amazon S3 ([S3_CLIENT.copy_object]), Amazon Transcribe
    ([TRANSCRIBE_CLIENT.start_call_analytics_job]) and Python's [uuid4]. The
    world is the process environment, the S3 objects by (bucket, key), the
    Transcribe call-analytics jobs by name, and the random source of [uuid4]
    as a sequence of tokens with a cursor. The services are modelled from
    their documented behaviour, as far as the handlers observe it:
    parameter validation by botocore, [NoSuchKey] for a missing copy
    source, [ConflictException] for a job name already in use. *)

From S2P Require Import Prelude PyRuntime.

(** ** State *)

(** An S3 object: its content, which the handlers never inspect. *)
Record s3_object := S3Object { s3_body : pystr }.

#[export] Instance s3_object_eq_dec : EqDecision s3_object.
Proof. solve_decision. Defined.

Inductive participant_role := CUSTOMER | AGENT.

#[export] Instance participant_role_eq_dec : EqDecision participant_role.
Proof. solve_decision. Defined.

Record channel_definition := ChannelDefinition {
  channel_id : Z;
  participant : participant_role;
}.

#[export] Instance channel_definition_eq_dec : EqDecision channel_definition.
Proof. solve_decision. Defined.

(** A submitted call-analytics job, as Transcribe records it. *)
Record call_analytics_job := CallAnalyticsJob {
  job_media_uri : pystr;
  job_output_location : pystr;
  job_data_access_role_arn : pystr;
  job_channel_definitions : list channel_definition;
}.

#[export] Instance call_analytics_job_eq_dec : EqDecision call_analytics_job.
Proof. solve_decision. Defined.

Record world := World {
  w_environ : environ;
  w_s3 : gmap (pystr * pystr) s3_object;
  w_jobs : gmap pystr call_analytics_job;
  w_entropy : nat -> pystr;
  w_uuid_cursor : nat;
}.

Definition set_s3 (f : gmap (pystr * pystr) s3_object -> gmap (pystr * pystr) s3_object)
    (w : world) : world :=
  World (w_environ w) (f (w_s3 w)) (w_jobs w) (w_entropy w) (w_uuid_cursor w).

Definition set_jobs (f : gmap pystr call_analytics_job -> gmap pystr call_analytics_job)
    (w : world) : world :=
  World (w_environ w) (w_s3 w) (f (w_jobs w)) (w_entropy w) (w_uuid_cursor w).

Definition advance_uuid (w : world) : world :=
  World (w_environ w) (w_s3 w) (w_jobs w) (w_entropy w) (S (w_uuid_cursor w)).

(** ** [uuid.uuid4().hex]

    The next token of the random source; the cursor moves on. *)
Definition uuid4_hex : M world pystr :=
  fun w => (advance_uuid w, Ok (w_entropy w (w_uuid_cursor w))).

(** ** [S3_CLIENT.copy_object(CopySource=..., Bucket=..., Key=...)]

    botocore runs its [before-parameter-build] handlers, the most specific
    event first, before it builds any request. [handle_copy_source_param]
    ([before-parameter-build.s3.CopyObject]) reads [Bucket] and [Key] of
    the [CopySource] dict and raises [ParamValidationError] when one is
    missing. Then [validate_bucket_name] ([before-parameter-build.s3])
    calls [VALID_BUCKET.search(bucket)], which raises [TypeError] when
    [Bucket] is [None] (the value of an unset [os.environ.get]). S3 then
    answers [NoSuchKey] when the source object does not exist, and
    otherwise stores a copy under the destination, replacing any object
    there. The model refuses a [CopySource] that is a string or a dict
    whose fields are not strings, which botocore would format into a
    header; [lambda_handler] never passes either (its copy source is the
    dict of the event, and a key that is not a string raises
    [AttributeError] before the call). Destination buckets are not checked
    for existence. *)
Definition copy_source_fields (copy_source : pyval) : option (pystr * pystr) :=
  match getitem copy_source (py "Bucket"), getitem copy_source (py "Key") with
  | Ok (PStr b), Ok (PStr k) => Some (b, k)
  | _, _ => None
  end.

Definition copy_object (copy_source : pyval) (bucket : option pystr) (key : pystr) : M world unit :=
  match copy_source_fields copy_source, bucket with
  | None, _ => raise (ParamValidationError (py "CopySource"))
  | _, None => raise TypeError
  | Some src, Some dst_bucket =>
      fun w => match w_s3 w !! src with
               | None => (w, Exc (ClientError (py "NoSuchKey")))
               | Some o => (set_s3 (insert (dst_bucket, key) o) w, Ok tt)
               end
  end.

(** ** [TRANSCRIBE_CLIENT.start_call_analytics_job(...)]

    botocore refuses a [DataAccessRoleArn] that is not a string (the
    handler passes [os.environ.get(...)], [None] when unset); Transcribe
    refuses a job name that is already in use with [ConflictException], and
    otherwise records the job. *)
Definition start_call_analytics_job (job_name media_uri output_location : pystr)
    (role_arn : option pystr) (channels : list channel_definition) : M world unit :=
  match role_arn with
  | None => raise (ParamValidationError (py "DataAccessRoleArn"))
  | Some role =>
      fun w => match w_jobs w !! job_name with
               | Some _ => (w, Exc (ClientError (py "ConflictException")))
               | None => (set_jobs (insert job_name
                            (CallAnalyticsJob media_uri output_location role channels)) w,
                          Ok tt)
               end
  end.

(** ** How a handler may change the world

    [copies_only w w']: only S3 changed, no object was removed, and every
    object of [w'] is an object of [w] (a copy, possibly under a new key).
    [submits_only w w']: only the job store and the [uuid4] cursor changed,
    no job was removed or altered, and the cursor did not go back. *)
Definition copies_only (w w' : world) : Prop :=
  w_environ w' = w_environ w /\ w_jobs w' = w_jobs w
  /\ w_entropy w' = w_entropy w /\ w_uuid_cursor w' = w_uuid_cursor w
  /\ (forall k, is_Some (w_s3 w !! k) -> is_Some (w_s3 w' !! k))
  /\ (forall k o, w_s3 w' !! k = Some o -> exists k', w_s3 w !! k' = Some o).

Definition submits_only (w w' : world) : Prop :=
  w_environ w' = w_environ w /\ w_s3 w' = w_s3 w /\ w_entropy w' = w_entropy w
  /\ w_jobs w ⊆ w_jobs w' /\ w_uuid_cursor w <= w_uuid_cursor w'.

(** ** Lemmas *)

#[export] Instance copies_only_preorder : PreOrder copies_only.
Proof.
  split.
  - intros w. repeat split; eauto.
  - intros w1 w2 w3 (E1 & J1 & N1 & C1 & K1 & O1) (E2 & J2 & N2 & C2 & K2 & O2).
    repeat split; try congruence; [eauto|].
    intros k o Hk. destruct (O2 k o Hk) as (k' & Hk'). eauto.
Qed.

#[export] Instance submits_only_preorder : PreOrder submits_only.
Proof.
  split.
  - intros w. repeat split; done.
  - intros w1 w2 w3 (E1 & S1 & N1 & J1 & C1) (E2 & S2 & N2 & J2 & C2).
    repeat split; try congruence; [by etrans|lia].
Qed.

Lemma copy_object_copies_only (copy_source : pyval) (bucket : option pystr) (key : pystr) :
  preserves copies_only (copy_object copy_source bucket key).
Proof.
  intros w. unfold copy_object.
  destruct (copy_source_fields copy_source) as [src|], bucket as [b|]; simpl; try reflexivity.
  destruct (w_s3 w !! src) as [o|] eqn:Ho; simpl; [|reflexivity].
  repeat split; simpl; [..| |].
  - intros k Hk. rewrite lookup_insert. case_decide; [done|exact Hk].
  - intros k o' Hk. rewrite lookup_insert in Hk. case_decide; simplify_eq; eauto.
Qed.

Lemma uuid4_hex_submits_only : preserves submits_only uuid4_hex.
Proof. intros w. repeat split; simpl; [done|lia]. Qed.

Lemma start_call_analytics_job_submits_only (name media out : pystr) role chans :
  preserves submits_only (start_call_analytics_job name media out role chans).
Proof.
  intros w. unfold start_call_analytics_job. destruct role as [r|]; simpl; [|reflexivity].
  destruct (w_jobs w !! name) eqn:Hn; simpl; [reflexivity|].
  repeat split; simpl; [|lia]. by apply insert_subseteq.
Qed.

Lemma copy_object_ok (copy_source : pyval) (src : pystr * pystr) (b key : pystr) (w : world)
    (o : s3_object) :
  copy_source_fields copy_source = Some src -> w_s3 w !! src = Some o ->
  copy_object copy_source (Some b) key w = (set_s3 (insert (b, key) o) w, Ok tt).
Proof. intros Hc Ho. unfold copy_object. by rewrite Hc, Ho. Qed.

Lemma start_call_analytics_job_ok (name media out role : pystr) chans (w : world) :
  w_jobs w !! name = None ->
  start_call_analytics_job name media out (Some role) chans w
  = (set_jobs (insert name (CallAnalyticsJob media out role chans)) w, Ok tt).
Proof. intros H. unfold start_call_analytics_job. by rewrite H. Qed.

Lemma set_s3_insert_insert (k : pystr * pystr) (o : s3_object) (w : world) :
  set_s3 (insert k o) (set_s3 (insert k o) w) = set_s3 (insert k o) w.
Proof. destruct w. unfold set_s3. simpl. by rewrite insert_insert_eq. Qed.

(** A successful copy leaves the environment alone, and repeating it
    changes nothing more: the source still holds the same object (it is
    either untouched or is the destination itself), and storing the same
    object again under the same key is no change. *)
Lemma copy_object_repeat (copy_source : pyval) (bucket : option pystr) (key : pystr) (w w' : world) :
  copy_object copy_source bucket key w = (w', Ok tt) ->
  w_environ w' = w_environ w /\ copy_object copy_source bucket key w' = (w', Ok tt).
Proof.
  unfold copy_object. destruct (copy_source_fields copy_source) as [src|], bucket as [b|];
    simpl; try discriminate.
  destruct (w_s3 w !! src) as [o|] eqn:Ho; simpl; intros E; simplify_eq/=.
  split; [done|]. simpl. rewrite lookup_insert.
  replace (if decide ((b, key) = src) then Some o else w_s3 w !! src) with (Some o)
    by (case_decide; congruence).
  by rewrite set_s3_insert_insert.
Qed.
