(* ===== verification/EventBridge.v ===== *)
(** * Reading the inbound EventBridge event ([aux_eventbridge_events])

    The module [aux_eventbridge_events] is not part of the sources. It is
    modelled from the specification: an S3 "Object Created" event carries
    the bucket at [event["detail"]["bucket"]["name"]] and the key at
    [event["detail"]["object"]["key"]]; a missing field raises [KeyError],
    a field that is not a dict raises [TypeError]. [extract_copy_source]
    returns the dict [{"Bucket": ..., "Key": ...}] that [copy_object]
    takes as [CopySource]. *)

From S2P Require Import Prelude PyRuntime.

Section Extract.
Context {σ : Type}.
Local Open Scope py_scope.

Definition extract_source_bucket_name (event : pyval) : M σ pyval :=
  detail <- lift (getitem event (py "detail")) ;;
  bucket <- lift (getitem detail (py "bucket")) ;;
  lift (getitem bucket (py "name")).

Definition extract_source_object_key (event : pyval) : M σ pyval :=
  detail <- lift (getitem event (py "detail")) ;;
  object <- lift (getitem detail (py "object")) ;;
  lift (getitem object (py "key")).

Definition extract_copy_source (event : pyval) : M σ pyval :=
  bucket <- extract_source_bucket_name event ;;
  key <- extract_source_object_key event ;;
  ret (PDict [(py "Bucket", bucket); (py "Key", key)]).
End Extract.

(** The event S3 sends to EventBridge when [key] is created in [bucket]. *)
Definition object_created_event (bucket key : pystr) : pyval :=
  PDict [(py "detail-type", PStr (py "Object Created"));
         (py "source", PStr (py "aws.s3"));
         (py "detail", PDict [(py "bucket", PDict [(py "name", PStr bucket)]);
                             (py "object", PDict [(py "key", PStr key)])])].

Section Lemmas.
Context {σ : Type}.

Lemma extract_source_bucket_name_created (bucket key : pystr) (s : σ) :
  extract_source_bucket_name (object_created_event bucket key) s = (s, Ok (PStr bucket)).
Proof. reflexivity. Qed.

Lemma extract_source_object_key_created (bucket key : pystr) (s : σ) :
  extract_source_object_key (object_created_event bucket key) s = (s, Ok (PStr key)).
Proof. reflexivity. Qed.

Lemma extract_copy_source_created (bucket key : pystr) (s : σ) :
  extract_copy_source (object_created_event bucket key) s
  = (s, Ok (PDict [(py "Bucket", PStr bucket); (py "Key", PStr key)])).
Proof. reflexivity. Qed.

(** Extraction does not depend on the state: its answer is the one it
    gives in the unit state. *)
Lemma extract_copy_source_state_indep (event : pyval) (s : σ) :
  extract_copy_source event s = (s, snd (extract_copy_source (σ := unit) event tt)).
Proof.
  unfold extract_copy_source, extract_source_bucket_name, extract_source_object_key, bind, lift.
  repeat case_match; simplify_eq/=; done.
Qed.

Lemma extract_source_bucket_name_state_indep (event : pyval) (s : σ) :
  extract_source_bucket_name event s
  = (s, snd (extract_source_bucket_name (σ := unit) event tt)).
Proof.
  unfold extract_source_bucket_name, bind, lift. repeat case_match; simplify_eq/=; done.
Qed.

Lemma extract_source_object_key_state_indep (event : pyval) (s : σ) :
  extract_source_object_key event s = (s, snd (extract_source_object_key (σ := unit) event tt)).
Proof.
  unfold extract_source_object_key, bind, lift. repeat case_match; simplify_eq/=; done.
Qed.

(** Extraction raises only Python errors. *)
Lemma extract_source_bucket_name_not_client (event : pyval) (code : pystr) :
  snd (extract_source_bucket_name (σ := unit) event tt) <> Exc (ClientError code).
Proof.
  unfold extract_source_bucket_name, bind, lift. simpl.
  destruct (getitem event _) as [d|x] eqn:E1; simpl;
    [|intros [= ->]; exact (getitem_not_client _ _ _ E1)].
  destruct (getitem d _) as [b|x] eqn:E2; simpl;
    [apply getitem_not_client | intros [= ->]; exact (getitem_not_client _ _ _ E2)].
Qed.

Lemma extract_source_object_key_not_client (event : pyval) (code : pystr) :
  snd (extract_source_object_key (σ := unit) event tt) <> Exc (ClientError code).
Proof.
  unfold extract_source_object_key, bind, lift. simpl.
  destruct (getitem event _) as [d|x] eqn:E1; simpl;
    [|intros [= ->]; exact (getitem_not_client _ _ _ E1)].
  destruct (getitem d _) as [b|x] eqn:E2; simpl;
    [apply getitem_not_client | intros [= ->]; exact (getitem_not_client _ _ _ E2)].
Qed.

(** Extraction never changes the state: it either answers or raises. *)
Lemma extract_copy_source_pure (event : pyval) (s : σ) :
  fst (extract_copy_source event s) = s.
Proof.
  unfold extract_copy_source, extract_source_bucket_name, extract_source_object_key, bind, lift.
  repeat case_match; simplify_eq/=; done.
Qed.

Lemma extract_source_bucket_name_preserves (R : relation σ) `{!PreOrder R} (event : pyval) :
  preserves R (extract_source_bucket_name event).
Proof. unfold extract_source_bucket_name. solve_preserves. Qed.

Lemma extract_source_object_key_preserves (R : relation σ) `{!PreOrder R} (event : pyval) :
  preserves R (extract_source_object_key event).
Proof. unfold extract_source_object_key. solve_preserves. Qed.
Lemma extract_copy_source_preserves (R : relation σ) `{!PreOrder R} (event : pyval) :
  preserves R (extract_copy_source event).
Proof.
  unfold extract_copy_source. solve_preserves.
Qed.

End Lemmas.

#[export] Hint Rewrite @extract_source_bucket_name_created @extract_source_object_key_created
  @extract_copy_source_created : pymonad.
