(* ===== verification/IngestHandler.v ===== *)
(** * The ingestion handler ([ingest_call_recording.py])

    [Module IngestCallRecording] translates
    [src/resources/code/2-datalake-ingestion-service/src/ingest_call_recording.py]:
    the environment-variable names, [construct_destination_object_key] (the
    key rewriting) and [lambda_handler] (account id and region lookups, the
    event, the copy). The [logger] argument and the logging calls of the
    source only write log lines and are left out. *)

From S2P Require Import Prelude PyRuntime PyStr AuxPaths RecordingKeys AwsServices EventBridge.

Module IngestCallRecording.
Section Handler.
Context `{AuxPaths}.
Local Open Scope py_scope.

Definition ENV_CONTACT_CENTER_DATA_BUCKET_ARN : pystr := py "CONTACT_CENTER_DATA_BUCKET_ARN".
Definition ENV_CONTACT_CENTER_DATA_BUCKET_NAME : pystr := py "CONTACT_CENTER_DATA_BUCKET_NAME".
Definition ENV_DATA_LAKE_DATA_BUCKET_ARN : pystr := py "DATA_LAKE_DATA_BUCKET_ARN".
Definition ENV_DATA_LAKE_DATA_BUCKET_NAME : pystr := py "DATA_LAKE_DATA_BUCKET_NAME".

(** Lines 49-63: find the marker, take what follows it, and reformat the
    timestamp at the fixed offsets 52, 54 and 62. Python's [+] on strings
    is left-associative; the concatenation is the same either way. *)
Definition construct_destination_object_key (source_object_key : pystr) : pystr :=
  let index := py_find source_object_key PATH_CONNECT_CALLRECORDINGS in
  let index := (index + Z.of_nat (length PATH_CONNECT_CALLRECORDINGS))%Z in
  let tmp_destination_object_key_suffix := py_slice source_object_key (Some index) None in
  let destination_object_key_suffix :=
    py_slice tmp_destination_object_key_suffix None (Some 52%Z) ++ py "-"
    ++ py_slice tmp_destination_object_key_suffix (Some 52%Z) (Some 54%Z) ++ py "-"
    ++ py_slice tmp_destination_object_key_suffix (Some 54%Z) (Some 62%Z) ++ py ":00Z.wav" in
  PATH_CONNECT_CALLRECORDINGS_RAW ++ destination_object_key_suffix.

(** Lines 67-98. The account id and the region are only logged, but
    computing them can raise: [split(":")[4]] raises [IndexError] on an
    ARN of fewer than five fields, [os.environ["AWS_REGION"]] raises
    [KeyError] when the variable is unset. *)
Definition lambda_handler (event : pyval) (context : lambda_context) : M world unit :=
  arn_fields <- lift (py_split (invoked_function_arn context) (py ":")) ;;
  aws_account_id <- lift (py_list_index arn_fields 4) ;;
  env <- gets w_environ ;;
  aws_region <- lift (environ_getitem env (py "AWS_REGION")) ;;
  copy_source <- extract_copy_source event ;;
  let destination_bucket_name := environ_get env ENV_DATA_LAKE_DATA_BUCKET_NAME in
  source_key <- lift (getitem copy_source (py "Key")) ;;
  source_object_key <- lift (str_method_self source_key) ;;
  let destination_object_key := construct_destination_object_key source_object_key in
  copy_object copy_source destination_bucket_name destination_object_key.
End Handler.

(** ** Specification helpers

    [marker_end s] is the index the code slices from (its [index] after line
    52); [timestamp_suffix t] is the list reading of line 59, in which each
    slice is a [take] of a [drop]. *)
Section Spec.
Context `{AuxPaths}.

Definition marker_end (s : pystr) : nat :=
  Z.to_nat (py_find s PATH_CONNECT_CALLRECORDINGS + Z.of_nat (length PATH_CONNECT_CALLRECORDINGS)).

Definition timestamp_suffix (t : pystr) : pystr :=
  take 52 t ++ py "-" ++ take 2 (drop 52 t) ++ py "-" ++ take 8 (drop 54 t) ++ py ":00Z.wav".

(** The ARN of the invoked function has a fifth [:]-separated field, the
    account id [lambda_handler] reads. *)
Definition arn_has_account (arn : pystr) : bool :=
  match py_split arn (py ":") with Ok fields => 5 <=? length fields | Exc _ => false end.

(** What [lambda_handler] computes before it calls [copy_object]: the
    arguments of the copy, or the exception raised on the way. It reads
    the environment and the event only. *)
Definition ingest_plan (event : pyval) (context : lambda_context) (env : environ)
    : res (pyval * option pystr * pystr) :=
  match py_split (invoked_function_arn context) (py ":") with
  | Exc x => Exc x
  | Ok fields =>
    match py_list_index fields 4 with
    | Exc x => Exc x
    | Ok _ =>
      match environ_getitem env (py "AWS_REGION") with
      | Exc x => Exc x
      | Ok _ =>
        match snd (extract_copy_source (σ := unit) event tt) with
        | Exc x => Exc x
        | Ok copy_source =>
          match getitem copy_source (py "Key") with
          | Exc x => Exc x
          | Ok v =>
            match str_method_self v with
            | Exc x => Exc x
            | Ok key => Ok (copy_source, environ_get env ENV_DATA_LAKE_DATA_BUCKET_NAME,
                            construct_destination_object_key key)
            end
          end
        end
      end
    end
  end.

(** A concrete invocation: the function's ARN, and a world with the
    region, the data-lake bucket and the sample recording in the contact
    center bucket. *)
Definition sample_context : lambda_context :=
  LambdaContext (py "arn:aws:lambda:eu-central-1:123456789012:function:ingest-call-recording").

Definition sample_world : world :=
  World (<[py "AWS_REGION" := py "eu-central-1"]>
           (<[ENV_DATA_LAKE_DATA_BUCKET_NAME := py "data-lake"]> ∅))
        {[ (py "contact-center", connect_key sample_recording) := S3Object (py "RIFF") ]}
        ∅ (fun n => py "0123456789abcdef0123456789abcdef") 0.
End Spec.

(** ** The key rewriting *)
Section KeyTheorems.
Context `{AuxPathsOk}.

Lemma construct_destination_object_key_eq (s : pystr) :
  construct_destination_object_key s
  = PATH_CONNECT_CALLRECORDINGS_RAW ++ timestamp_suffix (drop (marker_end s) s).
Proof.
  unfold construct_destination_object_key, timestamp_suffix, marker_end.
  rewrite py_slice_from by apply py_find_end_nonneg.
  rewrite py_slice_to, !py_slice_range by lia. reflexivity.
Qed.

Lemma timestamp_suffix_fields (a b c d : pystr) :
  length a = 52 -> length b = 2 -> length c = 8 ->
  timestamp_suffix (a ++ b ++ c ++ d) = a ++ py "-" ++ b ++ py "-" ++ c ++ py ":00Z.wav".
Proof.
  intros Ha Hb Hc. unfold timestamp_suffix.
  rewrite take_app_length' by done. rewrite drop_app_length' by done.
  rewrite take_app_length' by done.
  rewrite (app_assoc a b), drop_app_length' by (rewrite length_app; lia).
  by rewrite take_app_length'.
Qed.

Lemma marker_end_after_prefix (pre suf : pystr) :
  ~ occurs PATH_CONNECT_CALLRECORDINGS pre ->
  marker_end (pre ++ PATH_CONNECT_CALLRECORDINGS ++ suf)
  = length pre + length PATH_CONNECT_CALLRECORDINGS.
Proof.
  intros Hpre. unfold marker_end.
  destruct marker_last_unique as (body & c & Hm & Hc). rewrite Hm in *.
  rewrite py_find_after_prefix by done. lia.
Qed.

Lemma connect_suffix_fields (r : recording) :
  recording_wf r = true ->
  exists a b c,
    connect_suffix r = a ++ b ++ c ++ py "_UTC.wav"
    /\ length a = 52 /\ length b = 2 /\ length c = 8
    /\ iso_stem r ++ py ".wav" = a ++ py "-" ++ b ++ py "-" ++ c ++ py ":00Z.wav".
Proof.
  intros Hwf. apply recording_wf_spec in Hwf as (H1 & H2 & H3 & H4 & H5 & H6 & H7 & H8 & H9 & _).
  exists (rec_dir_year r ++ py "/" ++ rec_dir_month r ++ py "/" ++ rec_dir_day r ++ py "/"
          ++ rec_contact_id r ++ py "_" ++ rec_year r), (rec_month r),
         (rec_day r ++ py "T" ++ rec_hour r ++ py ":" ++ rec_minute r).
  unfold connect_suffix, iso_stem. rewrite <- !app_assoc. repeat split; py_lia.
Qed.

(** The rewriting of a key whose marker follows a marker-free prefix and
    is followed by fields of 52, 2 and 8 characters. *)
Lemma construct_destination_object_key_fields (pre a b c d : pystr) :
  ~ occurs PATH_CONNECT_CALLRECORDINGS pre ->
  length a = 52 -> length b = 2 -> length c = 8 ->
  construct_destination_object_key (pre ++ PATH_CONNECT_CALLRECORDINGS ++ a ++ b ++ c ++ d)
  = PATH_CONNECT_CALLRECORDINGS_RAW ++ a ++ py "-" ++ b ++ py "-" ++ c ++ py ":00Z.wav".
Proof.
  intros Hpre Ha Hb Hc. rewrite construct_destination_object_key_eq.
  rewrite marker_end_after_prefix by done. rewrite app_assoc, drop_app_length' by py_lia.
  by rewrite timestamp_suffix_fields.
Qed.

(** Whatever the key, the rewritten key is the raw-recordings prefix, a
    middle part and the extension [.wav]: the code appends [":00Z.wav"]
    unconditionally. *)
Lemma construct_destination_object_key_wav (s : pystr) :
  exists w, construct_destination_object_key s = PATH_CONNECT_CALLRECORDINGS_RAW ++ w ++ py ".wav".
Proof.
  rewrite construct_destination_object_key_eq. unfold timestamp_suffix.
  set (t := drop (marker_end s) s).
  exists (take 52 t ++ py "-" ++ take 2 (drop 52 t) ++ py "-" ++ take 8 (drop 54 t) ++ py ":00Z").
  by rewrite <- !app_assoc.
Qed.

(** The rewriting of a Connect key of a well-formed recording, after a
    marker-free prefix: the raw-recordings prefix, the ISO stem, [.wav]. *)
Lemma construct_destination_object_key_connect (r : recording) :
  recording_wf r = true -> ~ occurs PATH_CONNECT_CALLRECORDINGS (rec_prefix r) ->
  construct_destination_object_key (connect_key r)
  = PATH_CONNECT_CALLRECORDINGS_RAW ++ iso_stem r ++ py ".wav".
Proof.
  intros Hwf Hpre. unfold connect_key.
  destruct (connect_suffix_fields r Hwf) as (a & b & c & -> & Ha & Hb & Hc & Hiso).
  rewrite construct_destination_object_key_fields by done. by rewrite Hiso.
Qed.

(** C1. Refinement of the key format: on the key under which Connect
    stores a well-formed recording (date directory, 36-character contact
    id, [YYYYMMDDTHH:MM] timestamp), after a prefix that does not contain
    the marker, [construct_destination_object_key] yields the data-lake
    key of the same recording, with the ISO 8601 timestamp
    [YYYY-MM-DDTHH:MM:00Z]. *)
Theorem construct_destination_object_key_refines (r : recording) :
  recording_wf r = true -> ~ occurs PATH_CONNECT_CALLRECORDINGS (rec_prefix r) ->
  construct_destination_object_key (connect_key r) = datalake_key r.
Proof.
  intros Hwf Hpre. by apply construct_destination_object_key_connect.
Qed.

(** C7. Missing marker: when the key does not contain the marker, [find]
    answers [-1], the code slices from [len(marker) - 1], and the result
    is the raw-recordings prefix followed by the reformatting of that tail
    of the key. No exception is raised. *)
Theorem construct_destination_object_key_marker_absent (s : pystr) :
  ~ occurs PATH_CONNECT_CALLRECORDINGS s ->
  construct_destination_object_key s
  = PATH_CONNECT_CALLRECORDINGS_RAW
    ++ timestamp_suffix (drop (length PATH_CONNECT_CALLRECORDINGS - 1) s).
Proof.
  intros Habs. rewrite construct_destination_object_key_eq. do 3 f_equal.
  unfold marker_end. rewrite py_find_absent by done. lia.
Qed.

(** C13. Length: the rewritten key is the raw-recordings prefix, at most
    62 characters of the key after the marker, and the 10 characters the
    code adds ([-], [-], [:00Z.wav]); it has exactly 72 characters after
    the prefix when at least 62 follow the marker. *)
Theorem construct_destination_object_key_length (s : pystr) :
  length (construct_destination_object_key s)
  = length PATH_CONNECT_CALLRECORDINGS_RAW + 10 + Nat.min 62 (length s - marker_end s).
Proof.
  rewrite construct_destination_object_key_eq. unfold timestamp_suffix. py_lia.
Qed.

(** C31. The first marker wins: when the prefix of a Connect key itself
    contains the marker (after a marker-free part [a]), [find] stops at
    that occurrence, and the rewritten key reformats what follows it (the
    rest [b] of the prefix, the marker and the recording's own suffix)
    instead of the recording's timestamp. *)
Theorem construct_destination_object_key_marker_in_prefix (r : recording) (a b : pystr) :
  rec_prefix r = a ++ PATH_CONNECT_CALLRECORDINGS ++ b ->
  ~ occurs PATH_CONNECT_CALLRECORDINGS a ->
  construct_destination_object_key (connect_key r)
  = PATH_CONNECT_CALLRECORDINGS_RAW
    ++ timestamp_suffix (b ++ PATH_CONNECT_CALLRECORDINGS ++ connect_suffix r).
Proof.
  intros Hpre Ha. unfold connect_key. rewrite Hpre, <- !app_assoc.
  rewrite construct_destination_object_key_eq, marker_end_after_prefix by done.
  by rewrite app_assoc, drop_app_length' by py_lia.
Qed.

(** C32. The rewriting forgets the prefix: two well-formed recordings with
    marker-free prefixes and the same date directory, contact id and
    timestamp are copied to the same data-lake key, whatever their prefixes
    (two Connect instances sharing the bucket), so the second copy
    overwrites the first. *)
Theorem construct_destination_object_key_forgets_prefix (r1 r2 : recording) :
  recording_wf r1 = true -> recording_wf r2 = true ->
  ~ occurs PATH_CONNECT_CALLRECORDINGS (rec_prefix r1) ->
  ~ occurs PATH_CONNECT_CALLRECORDINGS (rec_prefix r2) ->
  iso_stem r1 = iso_stem r2 ->
  construct_destination_object_key (connect_key r1)
  = construct_destination_object_key (connect_key r2).
Proof.
  intros Hwf1 Hwf2 Hp1 Hp2 Hiso.
  by rewrite !construct_destination_object_key_connect, Hiso.
Qed.
End KeyTheorems.

(** ** The handler *)
Section HandlerTheorems.
Context `{AuxPathsOk}.

Lemma ingest_handler_plan (event : pyval) (context : lambda_context) (w : world) :
  lambda_handler event context w
  = match ingest_plan event context (w_environ w) with
    | Ok (copy_source, bucket, key) => copy_object copy_source bucket key w
    | Exc x => (w, Exc x)
    end.
Proof.
  unfold lambda_handler, ingest_plan, bind, lift, gets.
  rewrite extract_copy_source_state_indep. repeat case_match; simplify_eq/=; done.
Qed.

Lemma arn_has_account_split (arn : pystr) :
  arn_has_account arn = true ->
  exists fields account, py_split arn (py ":") = Ok fields /\ py_list_index fields 4 = Ok account.
Proof.
  unfold arn_has_account. destruct (py_split arn (py ":")) as [fields|] eqn:E; [|done].
  intros Hl. apply Nat.leb_le in Hl.
  destruct (lookup_lt_is_Some_2 fields 4) as [acct Ha]; [lia|].
  exists fields, acct. split; [done|]. by apply (py_list_index_in fields 4).
Qed.

(** The prefix of the plan for an ARN with an account field: the region
    lookup decides the rest. *)
Lemma ingest_plan_arn_ok (event : pyval) (context : lambda_context) (env : environ) :
  arn_has_account (invoked_function_arn context) = true ->
  ingest_plan event context env
  = match environ_getitem env (py "AWS_REGION") with
    | Exc x => Exc x
    | Ok _ =>
      match snd (extract_copy_source (σ := unit) event tt) with
      | Exc x => Exc x
      | Ok copy_source =>
        match getitem copy_source (py "Key") with
        | Exc x => Exc x
        | Ok v =>
          match str_method_self v with
          | Exc x => Exc x
          | Ok key => Ok (copy_source, environ_get env ENV_DATA_LAKE_DATA_BUCKET_NAME,
                          construct_destination_object_key key)
          end
        end
      end
    end.
Proof.
  intros Harn. destruct (arn_has_account_split _ Harn) as (fields & acct & Hs & Hi).
  unfold ingest_plan. by rewrite Hs, Hi.
Qed.

(** The plan for an S3 "Object Created" event, once the ARN and the region
    are there: copy the created object to the rewritten key. *)
Lemma ingest_plan_created (b k : pystr) (context : lambda_context) (env : environ) :
  arn_has_account (invoked_function_arn context) = true -> is_Some (env !! py "AWS_REGION") ->
  ingest_plan (object_created_event b k) context env
  = Ok (PDict [(py "Bucket", PStr b); (py "Key", PStr k)],
        environ_get env ENV_DATA_LAKE_DATA_BUCKET_NAME, construct_destination_object_key k).
Proof.
  intros Harn [region Hr]. rewrite ingest_plan_arn_ok by done.
  unfold environ_getitem. by rewrite Hr.
Qed.

(** The two outcomes of an invocation: nothing changed, or one object was
    stored, under the key and in the bucket [ingest_plan] computed. *)
Lemma ingest_handler_cases (event : pyval) (context : lambda_context) (w w' : world) r :
  lambda_handler event context w = (w', r) ->
  (w' = w /\ r <> Ok tt)
  \/ exists copy_source dl key src o,
       ingest_plan event context (w_environ w) = Ok (copy_source, Some dl, key)
       /\ copy_source_fields copy_source = Some src /\ w_s3 w !! src = Some o
       /\ w' = set_s3 (<[(dl, key) := o]>) w /\ r = Ok tt.
Proof.
  rewrite ingest_handler_plan.
  destruct (ingest_plan event context (w_environ w)) as [[[cs b] key]|x] eqn:P;
    [|intros [= <- <-]; by left].
  unfold copy_object, raise.
  destruct (copy_source_fields cs) as [src|] eqn:C; [|intros [= <- <-]; by left].
  destruct b as [dl|]; [|intros [= <- <-]; by left].
  destruct (w_s3 w !! src) as [o|] eqn:S; intros [= <- <-]; [right|by left].
  by exists cs, dl, key, src, o.
Qed.

(** C4. Success: for an "Object Created" event of an existing object, with
    an ARN that has an account field and [AWS_REGION] and
    [DATA_LAKE_DATA_BUCKET_NAME] set, the handler copies the object to the
    data-lake bucket under the rewritten key and changes nothing else. *)
Theorem lambda_handler_copies (b k dl : pystr) (context : lambda_context) (w : world)
    (o : s3_object) :
  arn_has_account (invoked_function_arn context) = true ->
  is_Some (w_environ w !! py "AWS_REGION") ->
  w_environ w !! ENV_DATA_LAKE_DATA_BUCKET_NAME = Some dl ->
  w_s3 w !! (b, k) = Some o ->
  lambda_handler (object_created_event b k) context w
  = (set_s3 (<[(dl, construct_destination_object_key k) := o]>) w, Ok tt).
Proof.
  intros Harn Hr Hdl Ho. rewrite ingest_handler_plan, ingest_plan_created by done.
  unfold environ_get. rewrite Hdl. by apply (copy_object_ok _ (b, k)).
Qed.

(** C14. Missing region: with [AWS_REGION] unset, [os.environ["AWS_REGION"]]
    raises [KeyError] before anything is copied; the world is unchanged. *)
Theorem lambda_handler_no_region (event : pyval) (context : lambda_context) (w : world) :
  arn_has_account (invoked_function_arn context) = true ->
  w_environ w !! py "AWS_REGION" = None ->
  lambda_handler event context w = (w, Exc (KeyError (py "AWS_REGION"))).
Proof.
  intros Harn Hr. rewrite ingest_handler_plan, ingest_plan_arn_ok by done.
  unfold environ_getitem. by rewrite Hr.
Qed.

(** C15. Short ARN: when the function ARN has fewer than five [:]-separated
    fields, [split(":")[4]] raises [IndexError] first; the world is
    unchanged. *)
Theorem lambda_handler_short_arn (event : pyval) (context : lambda_context) (w : world) :
  arn_has_account (invoked_function_arn context) = false ->
  lambda_handler event context w = (w, Exc IndexError).
Proof.
  unfold arn_has_account. intros Harn. rewrite ingest_handler_plan. unfold ingest_plan.
  destruct (py_split _ _) as [fields|] eqn:E; [|done].
  apply Nat.leb_gt in Harn. change 4%Z with (Z.of_nat 4). by rewrite py_list_index_out by lia.
Qed.

(** C16. Data-lake bucket unset: [os.environ.get] answers [None], and
    botocore's [validate_bucket_name] raises [TypeError] on it
    ([VALID_BUCKET.search(None)]) before any request; nothing is copied. *)
Theorem lambda_handler_no_data_lake_bucket (b k : pystr) (context : lambda_context) (w : world) :
  arn_has_account (invoked_function_arn context) = true ->
  is_Some (w_environ w !! py "AWS_REGION") ->
  w_environ w !! ENV_DATA_LAKE_DATA_BUCKET_NAME = None ->
  lambda_handler (object_created_event b k) context w
  = (w, Exc TypeError).
Proof.
  intros Harn Hr Hdl. rewrite ingest_handler_plan, ingest_plan_created by done.
  unfold environ_get. by rewrite Hdl.
Qed.

(** C27. Malformed event: with the ARN and the region in order, an event
    from which no copy source can be extracted (a missing [detail],
    [bucket], [object], [name] or [key], or a field that is not a dict),
    whose copy source cannot be indexed by ["Key"] (a string copy source,
    as the specification describes it, raises [TypeError]), or whose key
    is not a string (on which [.find] raises [AttributeError]),
    makes the handler raise that exception before any copy; the world is
    unchanged. *)
Theorem ingest_handler_malformed_event (event : pyval) (context : lambda_context) (w : world)
    (x : exn) :
  arn_has_account (invoked_function_arn context) = true ->
  is_Some (w_environ w !! py "AWS_REGION") ->
  snd (extract_copy_source (σ := unit) event tt) = Exc x
  \/ (exists copy_source, snd (extract_copy_source (σ := unit) event tt) = Ok copy_source
        /\ getitem copy_source (py "Key") = Exc x)
  \/ (exists copy_source v, snd (extract_copy_source (σ := unit) event tt) = Ok copy_source
        /\ getitem copy_source (py "Key") = Ok v /\ str_method_self v = Exc x) ->
  lambda_handler event context w = (w, Exc x).
Proof.
  intros Harn [region Hr] Hbad. rewrite ingest_handler_plan, ingest_plan_arn_ok by done.
  unfold environ_getitem. rewrite Hr.
  destruct Hbad as [->|[(cs & -> & Hk)|(cs & v & -> & Hk & Hv)]]; [done|by rewrite Hk|].
  by rewrite Hk, Hv.
Qed.

(** C17. Missing source object: S3 answers [NoSuchKey] and nothing is
    copied. *)
Theorem lambda_handler_missing_source (b k dl : pystr) (context : lambda_context) (w : world) :
  arn_has_account (invoked_function_arn context) = true ->
  is_Some (w_environ w !! py "AWS_REGION") ->
  w_environ w !! ENV_DATA_LAKE_DATA_BUCKET_NAME = Some dl ->
  w_s3 w !! (b, k) = None ->
  lambda_handler (object_created_event b k) context w
  = (w, Exc (ClientError (py "NoSuchKey"))).
Proof.
  intros Harn Hr Hdl Ho. rewrite ingest_handler_plan, ingest_plan_created by done.
  unfold environ_get, copy_object. rewrite Hdl. simpl. by rewrite Ho.
Qed.

(** C9. Frame: whatever the event, the context and the outcome, the
    handler changes nothing but S3, removes no object, and every object it
    leaves is an object that was already there. *)
Theorem lambda_handler_copies_only (event : pyval) (context : lambda_context) :
  preserves copies_only (lambda_handler event context).
Proof.
  unfold lambda_handler. solve_preserves.
  apply copy_object_copies_only.
Qed.

(** C11. Idempotence: delivering the same event again after a successful
    run succeeds and leaves the world as the first run left it. *)
Theorem lambda_handler_idempotent (event : pyval) (context : lambda_context) (w w' : world) :
  lambda_handler event context w = (w', Ok tt) ->
  lambda_handler event context w' = (w', Ok tt).
Proof.
  rewrite !ingest_handler_plan.
  destruct (ingest_plan event context (w_environ w)) as [[[cs bucket] key]|x] eqn:P; [|done].
  intros Hc. destruct (copy_object_repeat _ _ _ _ _ Hc) as [Henv Hrep].
  by rewrite Henv, P.
Qed.

(** The frame of the ingestion handler: what it does to S3 and what it
    answers depend on the environment and S3 only; it reads no job and no
    random token, and changes neither. *)
Lemma ingest_handler_frame (event : pyval) (context : lambda_context) (env : environ)
    (s3 : gmap (pystr * pystr) s3_object) (ent : nat -> pystr) :
  exists s3' r, forall jobs' n',
    lambda_handler event context (World env s3 jobs' ent n') = (World env s3' jobs' ent n', r).
Proof.
  destruct (ingest_plan event context env) as [[[cs b] k]|x] eqn:P.
  2:{ exists s3, (Exc x). intros jobs' n'. rewrite ingest_handler_plan. simpl. by rewrite P. }
  destruct (copy_source_fields cs) as [src|] eqn:C; [destruct b as [db|]|].
  2:{ exists s3, (Exc TypeError). intros jobs' n'.
      rewrite ingest_handler_plan. simpl. rewrite P. unfold copy_object. by rewrite C. }
  2:{ exists s3, (Exc (ParamValidationError (py "CopySource"))). intros jobs' n'.
      rewrite ingest_handler_plan. simpl. rewrite P. unfold copy_object. by rewrite C. }
  destruct (s3 !! src) as [o|] eqn:S.
  - exists (<[(db, k) := o]> s3), (Ok tt). intros jobs' n'.
    rewrite ingest_handler_plan. simpl. rewrite P. unfold copy_object. rewrite C. simpl. by rewrite S.
  - exists s3, (Exc (ClientError (py "NoSuchKey"))). intros jobs' n'.
    rewrite ingest_handler_plan. simpl. rewrite P. unfold copy_object. rewrite C. simpl. by rewrite S.
Qed.
End HandlerTheorems.

(** ** Witnesses at the workshop's path constants *)

Lemma construct_destination_object_key_refines_witness :
  construct_destination_object_key (connect_key sample_recording) = datalake_key sample_recording.
Proof.
  apply construct_destination_object_key_refines;
    [reflexivity | apply find_nat_none; vm_compute; reflexivity].
Defined.

Lemma construct_destination_object_key_marker_absent_witness :
  construct_destination_object_key (py "x/Recordings/2022/06/01/abc.wav")
  = py "call-recordings-raw/022/06/01/abc.wav--:00Z.wav".
Proof.
  rewrite construct_destination_object_key_marker_absent;
    [reflexivity | apply find_nat_none; vm_compute; reflexivity].
Defined.

Lemma lambda_handler_copies_witness :
  lambda_handler (object_created_event (py "contact-center") (connect_key sample_recording))
    sample_context sample_world
  = (set_s3 (<[(py "data-lake", construct_destination_object_key (connect_key sample_recording))
                := S3Object (py "RIFF")]>) sample_world, Ok tt).
Proof. apply lambda_handler_copies; [reflexivity | eexists; reflexivity | reflexivity..]. Defined.

Lemma lambda_handler_no_region_witness :
  lambda_handler (object_created_event (py "contact-center") (connect_key sample_recording))
    sample_context (World ∅ ∅ ∅ (fun _ => []) 0)
  = (World ∅ ∅ ∅ (fun _ => []) 0, Exc (KeyError (py "AWS_REGION"))).
Proof. apply lambda_handler_no_region; reflexivity. Defined.

Lemma lambda_handler_short_arn_witness :
  lambda_handler (object_created_event (py "contact-center") (connect_key sample_recording))
    (LambdaContext (py "arn:aws:lambda")) sample_world
  = (sample_world, Exc IndexError).
Proof. apply lambda_handler_short_arn. reflexivity. Defined.

Lemma lambda_handler_no_data_lake_bucket_witness :
  lambda_handler (object_created_event (py "contact-center") (connect_key sample_recording))
    sample_context (World {[py "AWS_REGION" := py "eu-central-1"]} ∅ ∅ (fun _ => []) 0)
  = (World {[py "AWS_REGION" := py "eu-central-1"]} ∅ ∅ (fun _ => []) 0,
     Exc TypeError).
Proof. apply lambda_handler_no_data_lake_bucket; [reflexivity | eexists; reflexivity | reflexivity]. Defined.

Lemma lambda_handler_missing_source_witness :
  lambda_handler (object_created_event (py "contact-center") (py "CallRecordings/missing.wav"))
    sample_context sample_world
  = (sample_world, Exc (ClientError (py "NoSuchKey"))).
Proof.
  apply (lambda_handler_missing_source _ _ (py "data-lake"));
    [reflexivity | eexists; reflexivity | reflexivity..].
Defined.

Lemma lambda_handler_idempotent_witness :
  let w1 := set_s3 (<[(py "data-lake", construct_destination_object_key (connect_key sample_recording))
                      := S3Object (py "RIFF")]>) sample_world in
  lambda_handler (object_created_event (py "contact-center") (connect_key sample_recording))
    sample_context w1 = (w1, Ok tt).
Proof.
  intros w1. apply (lambda_handler_idempotent _ _ sample_world).
  rewrite ingest_handler_plan, ingest_plan_created; [| reflexivity | eexists; reflexivity].
  replace (environ_get _ _) with (Some (py "data-lake")) by reflexivity.
  apply (copy_object_ok _ (py "contact-center", connect_key sample_recording)); reflexivity.
Defined.

Lemma construct_destination_object_key_length_witness :
  length (construct_destination_object_key (connect_key sample_recording)) = 92.
Proof. rewrite construct_destination_object_key_length. vm_compute. reflexivity. Defined.
Lemma ingest_handler_malformed_event_witness :
  lambda_handler (PDict [(py "detail-type", PStr (py "Object Created"))]) sample_context sample_world
  = (sample_world, Exc (KeyError (py "detail"))).
Proof.
  apply ingest_handler_malformed_event; [reflexivity | eexists; reflexivity | left; reflexivity].
Defined.

(** A recording filed under [CallRecordings/archive/]: the copy is named
    after the archive directory, not after the recording's timestamp. *)
Lemma construct_destination_object_key_marker_in_prefix_witness :
  let r := Recording (py "CallRecordings/archive/") (py "2022") (py "06") (py "01")
             (py "0a1b2c3d-4e5f-6789-abcd-ef0123456789")
             (py "2022") (py "06") (py "01") (py "13") (py "26") in
  construct_destination_object_key (connect_key r)
  = PATH_CONNECT_CALLRECORDINGS_RAW
    ++ timestamp_suffix (py "archive/" ++ PATH_CONNECT_CALLRECORDINGS ++ connect_suffix r)
  /\ construct_destination_object_key (connect_key r) <> datalake_key r.
Proof.
  intros r.
  assert (E : construct_destination_object_key (connect_key r)
              = PATH_CONNECT_CALLRECORDINGS_RAW
                ++ timestamp_suffix (py "archive/" ++ PATH_CONNECT_CALLRECORDINGS ++ connect_suffix r))
    by (apply (construct_destination_object_key_marker_in_prefix r []);
        [reflexivity | apply find_nat_none; vm_compute; reflexivity]).
  split; [exact E | rewrite E; vm_compute; discriminate].
Defined.
Lemma construct_destination_object_key_forgets_prefix_witness :
  construct_destination_object_key
    (connect_key (Recording (py "instance-b/") (py "2022") (py "06") (py "01")
                    (py "0a1b2c3d-4e5f-6789-abcd-ef0123456789")
                    (py "2022") (py "06") (py "01") (py "13") (py "26")))
  = construct_destination_object_key (connect_key sample_recording).
Proof.
  apply construct_destination_object_key_forgets_prefix;
    [reflexivity | reflexivity | apply find_nat_none; vm_compute; reflexivity
    | apply find_nat_none; vm_compute; reflexivity | reflexivity].
Defined.
End IngestCallRecording.
