(* ===== verification/AnalyticsHandler.v ===== *)
(** * The analytics handler ([run_call_analytics.py])

    [Module RunCallAnalytics] translates
    [src/resources/code/3-call-transcription-service/src/run_call_analytics.py]:
    the environment-variable names, [construct_destination_object_key] (two
    [str.replace] calls), [run_call_analytics] (the URIs, the random job name
    and the call to Transcribe) and [lambda_handler]. The [logger] argument
    and the logging calls are left out; so is [context], which the handler
    only logs. *)

From S2P Require Import Prelude PyRuntime PyStr AuxPaths RecordingKeys AwsServices EventBridge.

Module RunCallAnalytics.
Section Handler.
Context `{AuxPaths}.
Local Open Scope py_scope.

Definition ENV_DATA_LAKE_DATA_BUCKET_ARN : pystr := py "DATA_LAKE_DATA_BUCKET_ARN".
Definition ENV_DATA_LAKE_DATA_BUCKET_NAME : pystr := py "DATA_LAKE_DATA_BUCKET_NAME".
Definition ENV_DATA_ACCESS_ROLE_ARN : pystr := py "DATA_ACCESS_ROLE_ARN".

(** Lines 44-58: replace the raw-recordings prefix by the transcription
    prefix, then [".wav"] by the result suffix and [".json"]. Both are
    [str.replace] without a count: every occurrence is replaced. *)
Definition construct_destination_object_key (source_object_key : pystr) : pystr :=
  let destination_object_key :=
    py_replace source_object_key PATH_CONNECT_CALLRECORDINGS_RAW PATH_TRANSCRIBE_CALLANALYTICS_RAW in
  let destination_object_key :=
    py_replace destination_object_key (py ".wav") (PATH_CALL_ANALYTICS_RESULT ++ py ".json") in
  destination_object_key.

(** Lines 82-85: channel 0 is the customer, channel 1 the agent. *)
Definition channel_definitions : list channel_definition :=
  [ChannelDefinition 0 CUSTOMER; ChannelDefinition 1 AGENT].

(** Lines 61-87. The source bucket comes from the event and may be any
    value; the destination bucket is [os.environ.get(...)], [None] when
    unset; either raises [TypeError] in the concatenation. The job name
    takes the next [uuid4] token before the role is read and validated. *)
Definition run_call_analytics (source_bucket_name : pyval) (source_object_key : pystr)
    (destination_bucket_name : option pystr) (destination_object_key : pystr) : M world unit :=
  source_bucket <- lift (str_operand source_bucket_name) ;;
  let media_uri := py "s3://" ++ source_bucket ++ py "/" ++ source_object_key in
  destination_bucket <- lift (concat_operand destination_bucket_name) ;;
  let output_location := py "s3://" ++ destination_bucket ++ py "/" ++ destination_object_key in
  hex <- uuid4_hex ;;
  let job_name := py "job-" ++ hex in
  env <- gets w_environ ;;
  start_call_analytics_job job_name media_uri output_location
    (environ_get env ENV_DATA_ACCESS_ROLE_ARN) channel_definitions.

(** Lines 93-110. [construct_destination_object_key] calls [.replace] on the
    key from the event: a key that is not a string raises [AttributeError]. *)
Definition lambda_handler (event : pyval) (context : lambda_context) : M world unit :=
  source_bucket_name <- extract_source_bucket_name event ;;
  source_object_key <- extract_source_object_key event ;;
  env <- gets w_environ ;;
  let destination_bucket_name := environ_get env ENV_DATA_LAKE_DATA_BUCKET_NAME in
  source_key <- lift (str_method_self source_object_key) ;;
  let destination_object_key := construct_destination_object_key source_key in
  run_call_analytics source_bucket_name source_key destination_bucket_name destination_object_key.
End Handler.

(** ** Specification helpers *)
Section Spec.
Context `{AuxPaths}.

(** What [lambda_handler] computes before it draws the job name: the media
    URI and the output location, or the exception raised on the way. It
    reads the event and the environment only. *)
Definition analytics_plan (event : pyval) (env : environ) : res (pystr * pystr) :=
  match snd (extract_source_bucket_name (σ := unit) event tt) with
  | Exc x => Exc x
  | Ok bucket =>
    match snd (extract_source_object_key (σ := unit) event tt) with
    | Exc x => Exc x
    | Ok key_v =>
      match str_method_self key_v with
      | Exc x => Exc x
      | Ok key =>
        match str_operand bucket with
        | Exc x => Exc x
        | Ok source_bucket =>
          match concat_operand (environ_get env ENV_DATA_LAKE_DATA_BUCKET_NAME) with
          | Exc x => Exc x
          | Ok destination_bucket =>
            Ok (py "s3://" ++ source_bucket ++ py "/" ++ key,
                py "s3://" ++ destination_bucket ++ py "/" ++ construct_destination_object_key key)
          end
        end
      end
    end
  end.

(** The name of the job the next invocation submits. *)
Definition next_job_name (w : world) : pystr := py "job-" ++ w_entropy w (w_uuid_cursor w).

(** Every job in the store was named by an earlier [uuid4] token. *)
Definition job_names_drawn (w : world) : Prop :=
  forall name j, w_jobs w !! name = Some j ->
  exists i, i < w_uuid_cursor w /\ name = py "job-" ++ w_entropy w i.

(** The random source never repeats a token. *)
Definition entropy_injective (w : world) : Prop :=
  forall i j, w_entropy w i = w_entropy w j -> i = j.


(** The job store is well formed: every job reads an S3 object
    [s3://b/k], writes to the configured data-lake bucket under the
    analytics rewriting of [k], runs under the configured role, and maps
    channel 0 to the customer and channel 1 to the agent. *)
Definition jobs_wf (w : world) : Prop :=
  forall name j, w_jobs w !! name = Some j ->
  exists b k dl, job_media_uri j = py "s3://" ++ b ++ py "/" ++ k
    /\ w_environ w !! ENV_DATA_LAKE_DATA_BUCKET_NAME = Some dl
    /\ job_output_location j = py "s3://" ++ dl ++ py "/" ++ construct_destination_object_key k
    /\ w_environ w !! ENV_DATA_ACCESS_ROLE_ARN = Some (job_data_access_role_arn j)
    /\ job_channel_definitions j = channel_definitions.

(** Any sequence of invocations of the handler, on any events, each ending
    in a result or an exception. *)
Inductive analytics_runs : world -> world -> Prop :=
| analytics_runs_done w : analytics_runs w w
| analytics_runs_step w w1 w2 event context r :
    lambda_handler event context w = (w1, r) -> analytics_runs w1 w2 -> analytics_runs w w2.

Definition sample_analytics_world : world :=
  World (<[ENV_DATA_LAKE_DATA_BUCKET_NAME := py "data-lake"]>
          (<[ENV_DATA_ACCESS_ROLE_ARN := py "arn:aws:iam::123456789012:role/transcribe"]> ∅))
        ∅ ∅ (fun n => replicate n "f"%char) 0.
End Spec.

(** ** The key rewriting *)
Section KeyTheorems.
Context `{AuxPathsOk}.

Lemma raw_prefix_nonempty : PATH_CONNECT_CALLRECORDINGS_RAW <> [].
Proof. destruct raw_prefix_foreign_char as (c & Hc & _). intros E. rewrite E in Hc. set_solver. Qed.

Lemma dot_not_in_suffix_alphabet (s : pystr) :
  all_in suffix_alphabet s = true -> "."%char ∉ s.
Proof. intros Hs. apply (all_in_not_elem _ _ _ Hs). decide_by_computation. Qed.

(** A string over [recording_alphabet] does not contain the raw-recordings
    prefix, which has a character outside it. *)
Lemma raw_prefix_not_in (s : pystr) :
  all_in recording_alphabet s = true -> ~ occurs PATH_CONNECT_CALLRECORDINGS_RAW s.
Proof.
  intros Hs. destruct raw_prefix_foreign_char as (c & Hc & Hna).
  apply (not_occurs_of_char _ _ c Hc). by apply (all_in_not_elem recording_alphabet).
Qed.

Lemma suffix_in_recording_alphabet (s : pystr) :
  all_in suffix_alphabet s = true -> all_in recording_alphabet s = true.
Proof. apply all_in_weaken. decide_by_computation. Qed.

(** The first replacement on a key [raw ++ s]: the prefix becomes the
    transcription prefix and [s] is left alone. *)
Lemma replace_raw_prefix (s : pystr) :
  ~ occurs PATH_CONNECT_CALLRECORDINGS_RAW s ->
  py_replace (PATH_CONNECT_CALLRECORDINGS_RAW ++ s) PATH_CONNECT_CALLRECORDINGS_RAW
    PATH_TRANSCRIBE_CALLANALYTICS_RAW = PATH_TRANSCRIBE_CALLANALYTICS_RAW ++ s.
Proof.
  intros Hs. rewrite py_replace_match by apply raw_prefix_nonempty.
  by rewrite py_replace_not_occurs by (apply raw_prefix_nonempty || done).
Qed.

(** The key rewriting on a data-lake key [raw ++ stem ++ ".wav"] whose stem
    is made of the characters of a rewritten suffix. *)
Lemma construct_destination_object_key_stem (stem : pystr) :
  all_in suffix_alphabet stem = true ->
  construct_destination_object_key (PATH_CONNECT_CALLRECORDINGS_RAW ++ stem ++ py ".wav")
  = PATH_TRANSCRIBE_CALLANALYTICS_RAW ++ stem ++ PATH_CALL_ANALYTICS_RESULT ++ py ".json".
Proof.
  intros Hs. unfold construct_destination_object_key.
  rewrite replace_raw_prefix.
  2:{ apply raw_prefix_not_in. rewrite all_in_app, suffix_in_recording_alphabet by done.
      reflexivity. }
  rewrite app_assoc, (py_replace_suffix (py ".wav") _ ltac:(discriminate) _ "."%char);
    [by rewrite <- app_assoc|done|].
  apply not_elem_of_app. split; [apply transcribe_prefix_no_dot | by apply dot_not_in_suffix_alphabet].
Qed.

(** The key rewriting on any key [raw ++ w ++ ".wav"]: the prefix is
    rewritten, both replacements act on [w] as they may, and the final
    extension becomes the result suffix and [.json]. *)
Lemma construct_destination_object_key_raw_wav (w : pystr) :
  construct_destination_object_key (PATH_CONNECT_CALLRECORDINGS_RAW ++ w ++ py ".wav")
  = PATH_TRANSCRIBE_CALLANALYTICS_RAW
    ++ py_replace (py_replace w PATH_CONNECT_CALLRECORDINGS_RAW PATH_TRANSCRIBE_CALLANALYTICS_RAW)
         (py ".wav") (PATH_CALL_ANALYTICS_RESULT ++ py ".json")
    ++ PATH_CALL_ANALYTICS_RESULT ++ py ".json".
Proof.
  unfold construct_destination_object_key.
  destruct raw_prefix_last_not_ext as (body & c & Hraw & Hc).
  rewrite py_replace_match by apply raw_prefix_nonempty.
  rewrite (py_replace_app _ _ raw_prefix_nonempty)
    by exact (no_match_across_last _ _ _ _ _ Hraw Hc).
  rewrite (py_replace_not_occurs _ _ raw_prefix_nonempty (py ".wav"))
    by (apply (not_occurs_of_char _ _ c); [rewrite Hraw; set_solver | done]).
  rewrite (py_replace_app_l (py ".wav") _ ltac:(discriminate)) by
    (intros j Hj; by eapply (no_start_in_prefix _ _ _ "."%char); [| apply transcribe_prefix_no_dot |]).
  rewrite (py_replace_app (py ".wav") _ ltac:(discriminate))
    by exact (no_match_across_head (py ".wav") ltac:(discriminate) _ (py ".wav") "."%char eq_refl ltac:(decide_by_computation)).
  by rewrite py_replace_self by discriminate.
Qed.


(** The rewriting of the data-lake key of a well-formed recording. *)
Lemma construct_destination_object_key_datalake (r : recording) :
  recording_wf r = true ->
  construct_destination_object_key (datalake_key r)
  = PATH_TRANSCRIBE_CALLANALYTICS_RAW ++ iso_stem r ++ PATH_CALL_ANALYTICS_RESULT ++ py ".json".
Proof.
  intros Hwf. apply recording_wf_spec in Hwf. destruct_and!.
  by apply construct_destination_object_key_stem.
Qed.

(** C2. Refinement of the key format: on the data-lake key of a
    well-formed recording, the analytics key rewriting yields the
    analytics-result key of the same recording. *)
Theorem construct_destination_object_key_refines_analytics (r : recording) :
  recording_wf r = true -> construct_destination_object_key (datalake_key r) = analytics_key r.
Proof.
  intros Hwf. by apply construct_destination_object_key_datalake.
Qed.


(** C8. Every [.wav] is replaced, not only the extension: on a data-lake
    key whose stem itself contains [.wav], the result suffix is inserted at
    both places. *)
Theorem construct_destination_object_key_replaces_all (x y : pystr) :
  all_in suffix_alphabet x = true -> all_in suffix_alphabet y = true ->
  construct_destination_object_key
    (PATH_CONNECT_CALLRECORDINGS_RAW ++ x ++ py ".wav" ++ y ++ py ".wav")
  = PATH_TRANSCRIBE_CALLANALYTICS_RAW ++ x ++ (PATH_CALL_ANALYTICS_RESULT ++ py ".json")
    ++ y ++ (PATH_CALL_ANALYTICS_RESULT ++ py ".json").
Proof.
  intros Hx Hy. unfold construct_destination_object_key.
  rewrite replace_raw_prefix.
  2:{ apply raw_prefix_not_in.
      rewrite !all_in_app, (suffix_in_recording_alphabet x Hx),
        (suffix_in_recording_alphabet y Hy). reflexivity. }
  rewrite app_assoc, (py_replace_first (py ".wav") _ ltac:(discriminate) _ _ "."%char);
    [| done | apply not_elem_of_app; split;
              [apply transcribe_prefix_no_dot | by apply dot_not_in_suffix_alphabet]].
  rewrite (py_replace_suffix (py ".wav") _ ltac:(discriminate) _ "."%char);
    [by rewrite <- !app_assoc | done | by apply dot_not_in_suffix_alphabet].
Qed.

(** C21. A key that contains neither the raw-recordings prefix nor [.wav]
    (an object written elsewhere in the data-lake bucket, such as an
    analytics result) is returned unchanged: the job's output location is
    then its input's key. *)
Theorem construct_destination_object_key_unrelated (k : pystr) :
  ~ occurs PATH_CONNECT_CALLRECORDINGS_RAW k -> ~ occurs (py ".wav") k ->
  construct_destination_object_key k = k.
Proof.
  intros Hraw Hwav. unfold construct_destination_object_key.
  rewrite (py_replace_not_occurs _ _ raw_prefix_nonempty k Hraw).
  by rewrite (py_replace_not_occurs (py ".wav") _ ltac:(discriminate) k Hwav).
Qed.
End KeyTheorems.

(** ** The handler *)
Section HandlerTheorems.
Context `{AuxPaths}.

Lemma analytics_handler_plan (event : pyval) (context : lambda_context) (w : world) :
  lambda_handler event context w
  = match analytics_plan event (w_environ w) with
    | Exc x => (w, Exc x)
    | Ok (media_uri, output_location) =>
        start_call_analytics_job (next_job_name w) media_uri output_location
          (environ_get (w_environ w) ENV_DATA_ACCESS_ROLE_ARN) channel_definitions
          (advance_uuid w)
    end.
Proof.
  unfold lambda_handler, run_call_analytics, analytics_plan, bind, lift, gets, uuid4_hex.
  rewrite extract_source_bucket_name_state_indep, extract_source_object_key_state_indep.
  repeat case_match; simplify_eq/=; done.
Qed.

Lemma analytics_plan_created (b k : pystr) (env : environ) (dl : pystr) :
  env !! ENV_DATA_LAKE_DATA_BUCKET_NAME = Some dl ->
  analytics_plan (object_created_event b k) env
  = Ok (py "s3://" ++ b ++ py "/" ++ k,
        py "s3://" ++ dl ++ py "/" ++ construct_destination_object_key k).
Proof. intros Hdl. unfold analytics_plan, environ_get. simpl. by rewrite Hdl. Qed.

(** The three outcomes of an invocation: nothing changed (an exception
    before the job name is drawn), only the random cursor moved (the role
    is unset or the name is taken), or one job was added under the drawn
    name with the arguments [analytics_plan] computed. *)
Lemma lambda_handler_cases (event : pyval) (context : lambda_context) (w w' : world) r :
  lambda_handler event context w = (w', r) ->
  w' = w \/ w' = advance_uuid w
  \/ exists media out role,
       analytics_plan event (w_environ w) = Ok (media, out)
       /\ w_environ w !! ENV_DATA_ACCESS_ROLE_ARN = Some role
       /\ w_jobs w !! next_job_name w = None
       /\ w' = set_jobs (<[next_job_name w := CallAnalyticsJob media out role channel_definitions]>)
               (advance_uuid w).
Proof.
  rewrite analytics_handler_plan.
  destruct (analytics_plan event (w_environ w)) as [[media out]|x] eqn:P;
    [|intros [= <- _]; by left].
  unfold start_call_analytics_job, raise, environ_get.
  destruct (w_environ w !! ENV_DATA_ACCESS_ROLE_ARN) as [role|] eqn:R;
    [|intros [= <- _]; by right; left].
  simpl. destruct (w_jobs w !! next_job_name w) eqn:E; intros [= <- _]; [by right; left|].
  right; right. by exists media, out, role.
Qed.

(** C5. Success: for an "Object Created" event, with
    [DATA_LAKE_DATA_BUCKET_NAME] and [DATA_ACCESS_ROLE_ARN] set and a fresh
    job name, the handler draws one [uuid4] token and submits one job that
    reads [s3://bucket/key], writes to the data-lake bucket under the
    rewritten key, uses the role, and maps channel 0 to the customer and
    channel 1 to the agent. *)
Theorem lambda_handler_submits (b k dl role : pystr) (context : lambda_context) (w : world) :
  w_environ w !! ENV_DATA_LAKE_DATA_BUCKET_NAME = Some dl ->
  w_environ w !! ENV_DATA_ACCESS_ROLE_ARN = Some role ->
  w_jobs w !! next_job_name w = None ->
  lambda_handler (object_created_event b k) context w
  = (set_jobs (<[next_job_name w :=
        CallAnalyticsJob (py "s3://" ++ b ++ py "/" ++ k)
          (py "s3://" ++ dl ++ py "/" ++ construct_destination_object_key k)
          role channel_definitions]>) (advance_uuid w), Ok tt).
Proof.
  intros Hdl Hrole Hfree. rewrite analytics_handler_plan, (analytics_plan_created _ _ _ dl Hdl).
  unfold environ_get. rewrite Hrole. by apply start_call_analytics_job_ok.
Qed.

(** C18. Data-lake bucket unset: [os.environ.get] answers [None] and
    ["s3://" + None] raises [TypeError] before a job name is drawn; the
    world is unchanged. *)
Theorem analytics_handler_no_data_lake_bucket (b k : pystr) (context : lambda_context) (w : world) :
  w_environ w !! ENV_DATA_LAKE_DATA_BUCKET_NAME = None ->
  lambda_handler (object_created_event b k) context w = (w, Exc TypeError).
Proof.
  intros Hdl. rewrite analytics_handler_plan. unfold analytics_plan, environ_get. simpl.
  by rewrite Hdl.
Qed.

(** C19. Role unset: the job name is drawn (the [uuid4] cursor moves), then
    botocore refuses [DataAccessRoleArn = None]; no job is submitted. *)
Theorem lambda_handler_no_role (b k dl : pystr) (context : lambda_context) (w : world) :
  w_environ w !! ENV_DATA_LAKE_DATA_BUCKET_NAME = Some dl ->
  w_environ w !! ENV_DATA_ACCESS_ROLE_ARN = None ->
  lambda_handler (object_created_event b k) context w
  = (advance_uuid w, Exc (ParamValidationError (py "DataAccessRoleArn"))).
Proof.
  intros Hdl Hrole. rewrite analytics_handler_plan, (analytics_plan_created _ _ _ dl Hdl).
  unfold environ_get. by rewrite Hrole.
Qed.

(** C20. Name collision: when a job of the drawn name exists, Transcribe
    answers [ConflictException] and the store is unchanged. *)
Theorem lambda_handler_conflict (b k dl role : pystr) (context : lambda_context) (w : world)
    (j : call_analytics_job) :
  w_environ w !! ENV_DATA_LAKE_DATA_BUCKET_NAME = Some dl ->
  w_environ w !! ENV_DATA_ACCESS_ROLE_ARN = Some role ->
  w_jobs w !! next_job_name w = Some j ->
  lambda_handler (object_created_event b k) context w
  = (advance_uuid w, Exc (ClientError (py "ConflictException"))).
Proof.
  intros Hdl Hrole Hj. rewrite analytics_handler_plan, (analytics_plan_created _ _ _ dl Hdl).
  unfold environ_get, start_call_analytics_job. rewrite Hrole. simpl. by rewrite Hj.
Qed.

(** C10. Frame: whatever the event and the outcome, the handler changes
    neither the environment nor S3, removes or alters no job, and moves the
    [uuid4] cursor forward only. *)
Theorem lambda_handler_submits_only (event : pyval) (context : lambda_context) :
  preserves submits_only (lambda_handler event context).
Proof.
  unfold lambda_handler, run_call_analytics. solve_preserves;
    [apply uuid4_hex_submits_only | apply start_call_analytics_job_submits_only].
Qed.

(** ** Job names across invocations *)

Lemma next_job_name_fresh (w : world) :
  entropy_injective w -> job_names_drawn w -> w_jobs w !! next_job_name w = None.
Proof.
  intros Hinj Hdrawn. destruct (w_jobs w !! next_job_name w) as [j|] eqn:E; [|done].
  destruct (Hdrawn _ _ E) as (i & Hi & Hn). unfold next_job_name in Hn.
  apply app_inv_head, Hinj in Hn. lia.
Qed.

(** An invocation from a world whose jobs were all named by earlier tokens
    of a source that never repeats: the next name is free, so the outcome
    depends only on the plan and on the role. *)
Lemma lambda_handler_fresh (event : pyval) (context : lambda_context) (w : world) :
  entropy_injective w -> job_names_drawn w ->
  lambda_handler event context w
  = match analytics_plan event (w_environ w) with
    | Exc x => (w, Exc x)
    | Ok (media, out) =>
      match environ_get (w_environ w) ENV_DATA_ACCESS_ROLE_ARN with
      | None => (advance_uuid w, Exc (ParamValidationError (py "DataAccessRoleArn")))
      | Some role =>
        (set_jobs (<[next_job_name w := CallAnalyticsJob media out role channel_definitions]>)
           (advance_uuid w), Ok tt)
      end
    end.
Proof.
  intros Hinj Hd. rewrite analytics_handler_plan.
  destruct (analytics_plan _ _) as [[media out]|x]; [|done].
  unfold start_call_analytics_job. destruct (environ_get _ _); [|done].
  simpl. by rewrite next_job_name_fresh.
Qed.

(** Two consecutive tokens give two names. *)
Lemma next_job_name_advance_ne (w : world) :
  entropy_injective w -> next_job_name w <> next_job_name (advance_uuid w).
Proof. unfold next_job_name. simpl. intros Hinj Hn. injection Hn as Hn. apply Hinj in Hn. lia. Qed.

Lemma job_names_drawn_advance (w : world) : job_names_drawn w -> job_names_drawn (advance_uuid w).
Proof.
  intros Hd name j Hj. destruct (Hd name j Hj) as (i & Hi & ->). exists i. simpl. split; [lia|done].
Qed.

(** One invocation keeps every job name drawn and the random source
    unchanged, whatever its outcome. *)
Lemma lambda_handler_drawn (event : pyval) (context : lambda_context) (w w' : world) r :
  job_names_drawn w -> lambda_handler event context w = (w', r) ->
  job_names_drawn w' /\ w_entropy w' = w_entropy w.
Proof.
  intros Hd Hs.
  destruct (lambda_handler_cases _ _ _ _ _ Hs) as [->|[->|(media & out & role & _ & _ & _ & ->)]];
    (split; [|done]); [done | by apply job_names_drawn_advance |].
  intros name j. simpl. rewrite lookup_insert. case_decide as Hn.
  - intros _. exists (w_uuid_cursor w). subst name. split; [lia|done].
  - intros Hj. destruct (Hd name j Hj) as (i & Hi & ->). exists i. split; [lia|done].
Qed.

Lemma analytics_runs_drawn (w w' : world) :
  job_names_drawn w -> analytics_runs w w' -> job_names_drawn w' /\ w_entropy w' = w_entropy w.
Proof.
  intros Hd Hruns. induction Hruns as [|w w1 w2 event context r Hstep Hruns IH]; [done|].
  destruct (lambda_handler_drawn _ _ _ _ _ Hd Hstep) as [Hd1 He1].
  destruct (IH Hd1) as [Hd2 He2]. split; [done|congruence].
Qed.

(** The steps before the job is submitted raise only Python errors, never
    an answer of Transcribe. *)
(** What [analytics_plan] computes, when it succeeds: the media URI of the
    event's object and the output location of its rewritten key. *)
Lemma analytics_plan_ok (event : pyval) (env : environ) (media out : pystr) :
  analytics_plan event env = Ok (media, out) ->
  exists b k dl, media = py "s3://" ++ b ++ py "/" ++ k
    /\ env !! ENV_DATA_LAKE_DATA_BUCKET_NAME = Some dl
    /\ out = py "s3://" ++ dl ++ py "/" ++ construct_destination_object_key k.
Proof.
  unfold analytics_plan.
  destruct (snd (extract_source_bucket_name (σ := unit) event tt)) as [bv|]; [|done].
  destruct (snd (extract_source_object_key (σ := unit) event tt)) as [kv|]; [|done].
  destruct (str_method_self kv) as [k|]; [|done].
  destruct (str_operand bv) as [b|]; [|done].
  unfold concat_operand, environ_get.
  destruct (env !! ENV_DATA_LAKE_DATA_BUCKET_NAME) as [dl|]; [|done].
  intros [= <- <-]. by exists b, k, dl.
Qed.

Lemma jobs_wf_advance (w : world) : jobs_wf w -> jobs_wf (advance_uuid w).
Proof. done. Qed.

Lemma lambda_handler_jobs_wf (event : pyval) (context : lambda_context) (w w' : world) r :
  jobs_wf w -> lambda_handler event context w = (w', r) -> jobs_wf w'.
Proof.
  intros Hwf Hs.
  destruct (lambda_handler_cases _ _ _ _ _ Hs) as [->|[->|(media & out & role & P & R & _ & ->)]];
    [done|done|].
  destruct (analytics_plan_ok _ _ _ _ P) as (b & k & dl & -> & Hdl & ->).
  intros name j. simpl. rewrite lookup_insert. case_decide.
  - intros [= <-]. by exists b, k, dl.
  - apply Hwf.
Qed.

Lemma analytics_plan_not_client_error (event : pyval) (env : environ) (code : pystr) :
  analytics_plan event env <> Exc (ClientError code).
Proof.
  unfold analytics_plan.
  destruct (snd (extract_source_bucket_name event tt)) as [bucket|x] eqn:E1;
    [|intros [= ->]; exact (extract_source_bucket_name_not_client _ _ E1)].
  destruct (snd (extract_source_object_key event tt)) as [kv|x] eqn:E2;
    [|intros [= ->]; exact (extract_source_object_key_not_client _ _ E2)].
  destruct kv; try discriminate. destruct bucket; try discriminate. simpl.
  by destruct (environ_get _ _).
Qed.

(** C28. Malformed event: when the bucket name cannot be extracted, or the
    bucket name can and the key cannot, or the key is not a string (on
    which [.replace] raises [AttributeError]), the handler raises that
    exception before drawing a job name; the world is unchanged. *)
Theorem analytics_handler_malformed_event (event : pyval) (context : lambda_context) (w : world)
    (x : exn) :
  snd (extract_source_bucket_name (σ := unit) event tt) = Exc x
  \/ (exists b, snd (extract_source_bucket_name (σ := unit) event tt) = Ok b
        /\ snd (extract_source_object_key (σ := unit) event tt) = Exc x)
  \/ (exists b v, snd (extract_source_bucket_name (σ := unit) event tt) = Ok b
        /\ snd (extract_source_object_key (σ := unit) event tt) = Ok v /\ str_method_self v = Exc x) ->
  lambda_handler event context w = (w, Exc x).
Proof.
  intros Hbad. rewrite analytics_handler_plan. unfold analytics_plan.
  destruct Hbad as [->|[(b & -> & ->)|(b & v & -> & -> & ->)]]; done.
Qed.

(** C6. Job names never collide: from a world whose jobs were all named
    by earlier tokens of a source that never repeats a token, after any
    sequence of invocations on any events, the jobs are still so named, and
    no invocation answers [ConflictException]. *)
Theorem analytics_runs_no_conflict (w w' : world) :
  entropy_injective w -> job_names_drawn w -> analytics_runs w w' ->
  job_names_drawn w'
  /\ forall event context, snd (lambda_handler event context w') <> Exc (ClientError (py "ConflictException")).
Proof.
  intros Hinj Hd Hruns. destruct (analytics_runs_drawn _ _ Hd Hruns) as [Hd' He'].
  split; [done|]. intros event context. rewrite analytics_handler_plan.
  destruct (analytics_plan event (w_environ w')) as [[media out]|x] eqn:P;
    [|simpl; intros [= ->]; exact (analytics_plan_not_client_error _ _ _ P)].
  unfold start_call_analytics_job. destruct (environ_get _ _); [|done].
  simpl. rewrite (next_job_name_fresh w'); [done | |done]. unfold entropy_injective. by rewrite He'.
Qed.

(** C24. The job store stays well formed: from a world whose jobs are
    well formed, along any sequence of invocations on any events, every
    job reads [s3://b/k] and writes to the configured data-lake bucket
    under the analytics rewriting of [k], with the configured role and the
    customer/agent channel map. A job's output location is thus always
    determined by its input. *)
Theorem analytics_runs_jobs_wf (w w' : world) :
  jobs_wf w -> analytics_runs w w' -> jobs_wf w'.
Proof.
  intros Hwf Hruns. induction Hruns as [|w w1 w2 event context r Hstep Hruns IH]; [done|].
  apply IH. by eapply lambda_handler_jobs_wf.
Qed.

(** C12. Redelivery is not idempotent: delivering the same "Object Created"
    event twice submits two jobs under two different names, both reading
    the same media file. *)
Theorem lambda_handler_redelivery_two_jobs (b k dl role : pystr) (context : lambda_context)
    (w : world) :
  entropy_injective w -> job_names_drawn w ->
  w_environ w !! ENV_DATA_LAKE_DATA_BUCKET_NAME = Some dl ->
  w_environ w !! ENV_DATA_ACCESS_ROLE_ARN = Some role ->
  exists w1 w2,
    lambda_handler (object_created_event b k) context w = (w1, Ok tt)
    /\ lambda_handler (object_created_event b k) context w1 = (w2, Ok tt)
    /\ next_job_name w <> next_job_name w1
    /\ (job_media_uri <$> w_jobs w2 !! next_job_name w) = Some (py "s3://" ++ b ++ py "/" ++ k)
    /\ (job_media_uri <$> w_jobs w2 !! next_job_name w1) = Some (py "s3://" ++ b ++ py "/" ++ k).
Proof.
  intros Hinj Hd Hdl Hrole.
  set (job := CallAnalyticsJob (py "s3://" ++ b ++ py "/" ++ k)
                (py "s3://" ++ dl ++ py "/" ++ construct_destination_object_key k)
                role channel_definitions).
  set (w1 := set_jobs (<[next_job_name w := job]>) (advance_uuid w)).
  assert (Hrun1 : lambda_handler (object_created_event b k) context w = (w1, Ok tt)).
  { rewrite analytics_handler_plan, (analytics_plan_created _ _ _ dl Hdl).
    unfold environ_get. rewrite Hrole. apply start_call_analytics_job_ok.
    exact (next_job_name_fresh w Hinj Hd). }
  destruct (lambda_handler_drawn _ _ _ _ _ Hd Hrun1) as [Hd1 He1].
  assert (Hinj1 : entropy_injective w1) by (unfold entropy_injective; by rewrite He1).
  exists w1, (set_jobs (<[next_job_name w1 := job]>) (advance_uuid w1)).
  split; [done|]. split.
  { rewrite analytics_handler_plan, (analytics_plan_created _ _ _ dl Hdl).
    unfold environ_get. simpl. rewrite Hrole. apply start_call_analytics_job_ok.
    exact (next_job_name_fresh w1 Hinj1 Hd1). }
  assert (Hne : next_job_name w <> next_job_name w1) by exact (next_job_name_advance_ne w Hinj).
  split; [done|]. simpl. rewrite lookup_insert_ne, !lookup_insert_eq by done. done.
Qed.

(** The frame of the analytics handler: what it does to the jobs and the
    random cursor and what it answers depend on the environment, the jobs
    and the random source only; it reads no S3 object and changes none. *)
Lemma analytics_handler_frame (event : pyval) (context : lambda_context) (env : environ)
    (jobs : gmap pystr call_analytics_job) (ent : nat -> pystr) (n : nat) :
  exists jobs' n' r, forall s3,
    lambda_handler event context (World env s3 jobs ent n) = (World env s3 jobs' ent n', r).
Proof.
  destruct (analytics_plan event env) as [[m out]|x] eqn:P.
  2:{ exists jobs, n, (Exc x). intros s3. rewrite analytics_handler_plan. simpl. by rewrite P. }
  destruct (environ_get env ENV_DATA_ACCESS_ROLE_ARN) as [role|] eqn:R.
  2:{ exists jobs, (S n), (Exc (ParamValidationError (py "DataAccessRoleArn"))). intros s3.
      rewrite analytics_handler_plan. simpl. rewrite P. unfold start_call_analytics_job.
      simpl. by rewrite R. }
  destruct (jobs !! (py "job-" ++ ent n)) as [j|] eqn:J; simpl in J.
  - exists jobs, (S n), (Exc (ClientError (py "ConflictException"))). intros s3.
    rewrite analytics_handler_plan. simpl. rewrite P. unfold start_call_analytics_job.
    simpl. rewrite R. unfold next_job_name. simpl. by rewrite J.
  - exists (<[py "job-" ++ ent n := CallAnalyticsJob m out role channel_definitions]> jobs), (S n), (Ok tt).
    intros s3. rewrite analytics_handler_plan. simpl. rewrite P. unfold start_call_analytics_job.
    simpl. rewrite R. unfold next_job_name. simpl. by rewrite J.
Qed.
End HandlerTheorems.

(** The random source of the sample worlds never repeats, and a world
    without jobs has all its job names drawn. *)
Lemma entropy_injective_replicate (w : world) (c : ascii) :
  w_entropy w = (fun n => replicate n c) -> entropy_injective w.
Proof.
  intros He i j Hij. rewrite He in Hij. apply (f_equal length) in Hij.
  by rewrite !length_replicate in Hij.
Qed.

Lemma job_names_drawn_empty (w : world) : w_jobs w = ∅ -> job_names_drawn w.
Proof. intros Hj name j. by rewrite Hj, lookup_empty. Qed.

(** ** Witnesses at the workshop's path constants *)

Lemma construct_destination_object_key_refines_analytics_witness :
  construct_destination_object_key (datalake_key sample_recording) = analytics_key sample_recording.
Proof. apply construct_destination_object_key_refines_analytics. reflexivity. Defined.

Lemma construct_destination_object_key_replaces_all_witness :
  construct_destination_object_key (py "call-recordings-raw/a.wav/b.wav")
  = py "transcribe-call-analytics-raw/a-call-analytics-result.json/b-call-analytics-result.json".
Proof. exact (construct_destination_object_key_replaces_all (py "a") (py "/b") eq_refl eq_refl). Defined.

Lemma construct_destination_object_key_unrelated_witness :
  construct_destination_object_key (py "transcribe-call-analytics-raw/x.json")
  = py "transcribe-call-analytics-raw/x.json".
Proof.
  apply construct_destination_object_key_unrelated; apply find_nat_none; vm_compute; reflexivity.
Defined.

Lemma lambda_handler_submits_witness :
  lambda_handler (object_created_event (py "data-lake") (datalake_key sample_recording))
    (LambdaContext (py "arn:aws:lambda:eu-central-1:123456789012:function:run-call-analytics"))
    sample_analytics_world
  = (set_jobs (<[next_job_name sample_analytics_world :=
        CallAnalyticsJob (py "s3://" ++ py "data-lake" ++ py "/" ++ datalake_key sample_recording)
          (py "s3://" ++ py "data-lake" ++ py "/"
           ++ construct_destination_object_key (datalake_key sample_recording))
          (py "arn:aws:iam::123456789012:role/transcribe") channel_definitions]>)
       (advance_uuid sample_analytics_world), Ok tt).
Proof. apply lambda_handler_submits; reflexivity. Defined.

Lemma analytics_handler_no_data_lake_bucket_witness :
  lambda_handler (object_created_event (py "data-lake") (datalake_key sample_recording))
    (LambdaContext []) (World ∅ ∅ ∅ (fun _ => []) 0)
  = (World ∅ ∅ ∅ (fun _ => []) 0, Exc TypeError).
Proof. apply analytics_handler_no_data_lake_bucket. reflexivity. Defined.

Lemma lambda_handler_no_role_witness :
  let w := World {[ENV_DATA_LAKE_DATA_BUCKET_NAME := py "data-lake"]} ∅ ∅ (fun _ => []) 0 in
  lambda_handler (object_created_event (py "data-lake") (datalake_key sample_recording))
    (LambdaContext []) w
  = (advance_uuid w, Exc (ParamValidationError (py "DataAccessRoleArn"))).
Proof. intros w. apply (lambda_handler_no_role _ _ (py "data-lake")); reflexivity. Defined.

Lemma lambda_handler_conflict_witness :
  let job := CallAnalyticsJob [] [] [] [] in
  let w := World (w_environ sample_analytics_world) ∅ {[py "job-" := job]}
             (fun n => replicate n "f"%char) 0 in
  lambda_handler (object_created_event (py "data-lake") (datalake_key sample_recording))
    (LambdaContext []) w
  = (advance_uuid w, Exc (ClientError (py "ConflictException"))).
Proof.
  intros job w.
  apply (lambda_handler_conflict _ _ (py "data-lake") (py "arn:aws:iam::123456789012:role/transcribe")
           _ _ job); reflexivity.
Defined.

Lemma analytics_runs_no_conflict_witness :
  job_names_drawn sample_analytics_world
  /\ forall event context,
       snd (lambda_handler event context sample_analytics_world)
       <> Exc (ClientError (py "ConflictException")).
Proof.
  apply (analytics_runs_no_conflict sample_analytics_world).
  - by apply (entropy_injective_replicate _ "f"%char).
  - by apply job_names_drawn_empty.
  - apply analytics_runs_done.
Defined.

Lemma lambda_handler_redelivery_two_jobs_witness :
  exists w1 w2,
    lambda_handler (object_created_event (py "data-lake") (datalake_key sample_recording))
      (LambdaContext []) sample_analytics_world = (w1, Ok tt)
    /\ lambda_handler (object_created_event (py "data-lake") (datalake_key sample_recording))
         (LambdaContext []) w1 = (w2, Ok tt)
    /\ next_job_name sample_analytics_world <> next_job_name w1
    /\ (job_media_uri <$> w_jobs w2 !! next_job_name sample_analytics_world)
       = Some (py "s3://" ++ py "data-lake" ++ py "/" ++ datalake_key sample_recording)
    /\ (job_media_uri <$> w_jobs w2 !! next_job_name w1)
       = Some (py "s3://" ++ py "data-lake" ++ py "/" ++ datalake_key sample_recording).
Proof.
  apply (lambda_handler_redelivery_two_jobs _ _ (py "data-lake")
           (py "arn:aws:iam::123456789012:role/transcribe")).
  - by apply (entropy_injective_replicate _ "f"%char).
  - by apply job_names_drawn_empty.
  - reflexivity.
  - reflexivity.
Defined.
Lemma analytics_runs_jobs_wf_witness :
  let w1 := set_jobs (<[next_job_name sample_analytics_world :=
              CallAnalyticsJob (py "s3://" ++ py "data-lake" ++ py "/" ++ datalake_key sample_recording)
                (py "s3://" ++ py "data-lake" ++ py "/"
                 ++ construct_destination_object_key (datalake_key sample_recording))
                (py "arn:aws:iam::123456789012:role/transcribe") channel_definitions]>)
              (advance_uuid sample_analytics_world) in
  jobs_wf w1.
Proof.
  intros w1. apply (analytics_runs_jobs_wf sample_analytics_world).
  - intros name j Hj. unfold sample_analytics_world in Hj. simpl in Hj. by rewrite lookup_empty in Hj.
  - eapply (analytics_runs_step _ w1 _
      (object_created_event (py "data-lake") (datalake_key sample_recording)) (LambdaContext []));
      [|apply analytics_runs_done].
    rewrite analytics_handler_plan, (analytics_plan_created _ _ _ (py "data-lake")) by reflexivity.
    by apply start_call_analytics_job_ok.
Defined.
Lemma analytics_handler_malformed_event_witness :
  lambda_handler
    (PDict [(py "detail", PDict [(py "bucket", PDict [(py "name", PStr (py "data-lake"))]);
                                (py "object", PDict [(py "key", PInt 42)])])])
    (LambdaContext []) sample_analytics_world
  = (sample_analytics_world, Exc AttributeError).
Proof.
  apply analytics_handler_malformed_event. right; right.
  eexists _, _. split; [reflexivity|]. split; reflexivity.
Defined.
End RunCallAnalytics.
