(* ===== verification/Pipeline.v ===== *)
(** * The two handlers composed

    The ingestion handler writes a copy of a Connect recording into the
    data-lake bucket; S3 then emits an "Object Created" event for that copy,
    on which the analytics handler submits a Transcribe job. The handlers
    share no state but the bucket, named by the same environment variable
    [DATA_LAKE_DATA_BUCKET_NAME] in both, and the key convention of
    [aux_paths]. This file runs them one after the other on one world and
    proves that the job reads the copy and writes the analytics key of the
    recording. *)

From S2P Require Import Prelude PyRuntime PyStr AuxPaths RecordingKeys AwsServices EventBridge IngestHandler AnalyticsHandler.

(** A world in which the whole pipeline runs: the contact-center bucket
    holds the sample recording, the environment names the region, the
    data-lake bucket and the role, and the random source never repeats. *)
Definition pipeline_world : world :=
  World (<[py "AWS_REGION" := py "eu-central-1"]>
          (<[py "DATA_LAKE_DATA_BUCKET_NAME" := py "data-lake"]>
            (<[py "DATA_ACCESS_ROLE_ARN" := py "arn:aws:iam::123456789012:role/transcribe"]> ∅)))
        {[ (py "contact-center", connect_key sample_recording) := S3Object (py "RIFF") ]}
        ∅ (fun n => replicate n "f"%char) 0.

(** The wiring between the two functions. S3 emits an "Object Created"
    event for the copy [copy_object] wrote, in the bucket named by
    [DATA_LAKE_DATA_BUCKET_NAME] under the key the ingestion handler
    computed; the EventBridge rule of the data-lake bucket delivers it to
    the analytics function. When the ingestion handler raises, nothing is
    copied and no event follows. *)
Section Wiring.
Context `{AuxPaths}.
Local Open Scope py_scope.

Definition pipeline (cc key : pystr) (ctx_ingest ctx_analytics : lambda_context) : M world unit :=
  IngestCallRecording.lambda_handler (object_created_event cc key) ctx_ingest ;;;
  env <- gets w_environ ;;
  match environ_get env IngestCallRecording.ENV_DATA_LAKE_DATA_BUCKET_NAME with
  | Some dl =>
    RunCallAnalytics.lambda_handler
      (object_created_event dl (IngestCallRecording.construct_destination_object_key key))
      ctx_analytics
  | None => ret tt
  end.
End Wiring.

(** Two invocations run by the platform one after the other, on whatever
    events it delivers: the second runs whatever the first answered, and
    the results of both are kept. Each invocation is atomic here; the
    services serialize the calls each makes. *)
Definition invoke_both {A B} (m1 : M world A) (m2 : M world B) (w : world)
    : world * (res A * res B) :=
  let '(w1, r1) := m1 w in
  let '(w2, r2) := m2 w1 in
  (w2, (r1, r2)).

(** Two worlds that agree on everything but the names of the jobs: the
    same environment, objects, random source and cursor, and the same jobs
    as a multiset. Analytics invocations delivered in another order submit
    the same jobs under each other's names. *)
Definition job_values (w : world) : list call_analytics_job := snd <$> map_to_list (w_jobs w).

Definition world_equiv (w w' : world) : Prop :=
  w_environ w = w_environ w' /\ w_s3 w = w_s3 w' /\ w_entropy w = w_entropy w'
  /\ w_uuid_cursor w = w_uuid_cursor w' /\ job_values w ≡ₚ job_values w'.

(** The pipeline world with a recording whose key has nothing after the
    marker but [oops.wav]. *)
Definition broken_key_world : world :=
  set_s3 (<[(py "contact-center", py "CallRecordings/oops.wav") := S3Object (py "RIFF")]>)
    pipeline_world.

#[export] Instance world_equiv_equivalence : Equivalence world_equiv.
Proof.
  split.
  - intros w. by repeat split.
  - intros w w' (? & ? & ? & ? & ?). by repeat split.
  - intros w1 w2 w3 (? & ? & ? & ? & H12) (? & ? & ? & ? & H23).
    repeat split; try congruence. by rewrite H12.
Qed.

(** What [world_equiv] keeps: the number of jobs, and whether a given job
    was submitted. *)
#[export] Instance job_count_proper : Proper (world_equiv ==> eq) (fun w => size (w_jobs w)).
Proof.
  intros w w' (_ & _ & _ & _ & Hv). unfold job_values in Hv.
  apply Permutation_length in Hv. by rewrite !length_fmap, !length_map_to_list in Hv.
Qed.

#[export] Instance job_submitted_proper (j : call_analytics_job) :
  Proper (world_equiv ==> iff) (fun w => j ∈ job_values w).
Proof. intros w w' (_ & _ & _ & _ & Hv). by rewrite Hv. Qed.

(** Two jobs inserted under two fresh names, in one order or the other,
    give the same multiset of jobs. *)
Lemma job_values_insert_swap (m : gmap pystr call_analytics_job) (a b : pystr)
    (x y : call_analytics_job) :
  a <> b -> m !! a = None -> m !! b = None ->
  snd <$> map_to_list (<[b := y]> (<[a := x]> m)) ≡ₚ snd <$> map_to_list (<[b := x]> (<[a := y]> m)).
Proof.
  intros Hab Ha Hb.
  assert (Hb' : forall z, <[a := z]> m !! b = None) by (intros z; by rewrite lookup_insert_ne).
  rewrite !map_to_list_insert by done. simpl. by rewrite perm_swap.
Qed.

Section Pipeline.
Context `{AuxPathsOk}.

(** Both handlers read the data-lake bucket from the same variable. *)
Lemma data_lake_bucket_variable_shared :
  RunCallAnalytics.ENV_DATA_LAKE_DATA_BUCKET_NAME
  = IngestCallRecording.ENV_DATA_LAKE_DATA_BUCKET_NAME.
Proof. reflexivity. Qed.

(** One run of the pipeline on an existing object, with both functions
    configured and a free job name: the copy is stored under the rewritten
    key, and one job reads it and writes under the analytics rewriting of
    that key. *)
Lemma pipeline_run (cc key dl role : pystr) (ctx_ingest ctx_analytics : lambda_context)
    (w : world) (o : s3_object) :
  IngestCallRecording.arn_has_account (invoked_function_arn ctx_ingest) = true ->
  is_Some (w_environ w !! py "AWS_REGION") ->
  w_environ w !! IngestCallRecording.ENV_DATA_LAKE_DATA_BUCKET_NAME = Some dl ->
  w_environ w !! RunCallAnalytics.ENV_DATA_ACCESS_ROLE_ARN = Some role ->
  w_s3 w !! (cc, key) = Some o ->
  w_jobs w !! RunCallAnalytics.next_job_name w = None ->
  let dkey := IngestCallRecording.construct_destination_object_key key in
  pipeline cc key ctx_ingest ctx_analytics w
  = (set_jobs (<[RunCallAnalytics.next_job_name w :=
        CallAnalyticsJob (py "s3://" ++ dl ++ py "/" ++ dkey)
          (py "s3://" ++ dl ++ py "/" ++ RunCallAnalytics.construct_destination_object_key dkey)
          role RunCallAnalytics.channel_definitions]>)
       (advance_uuid (set_s3 (<[(dl, dkey) := o]>) w)), Ok tt).
Proof.
  intros Harn Hreg Hdl Hrole Ho Hfree dkey. unfold pipeline.
  rewrite (bind_step _ _ _ (set_s3 (<[(dl, dkey) := o]>) w) tt).
  2:{ rewrite IngestCallRecording.ingest_handler_plan,
        IngestCallRecording.ingest_plan_created by done.
      unfold environ_get. rewrite Hdl. by apply (copy_object_ok _ (cc, key)). }
  unfold bind, gets, environ_get. simpl. rewrite Hdl.
  rewrite RunCallAnalytics.analytics_handler_plan,
    (RunCallAnalytics.analytics_plan_created _ _ _ dl)
    by (simpl; rewrite data_lake_bucket_variable_shared; exact Hdl).
  unfold environ_get. simpl. rewrite Hrole. by apply start_call_analytics_job_ok.
Qed.

(** C3. End to end: for a well-formed recording stored by Connect, with the
    environment of both functions configured and a random source that never
    repeats, the ingestion handler succeeds on the recording's event, the
    analytics handler succeeds on the event of the copy, the data-lake
    bucket holds the recording under its data-lake key, and the submitted
    job reads that object and writes the recording's analytics key. *)
Theorem pipeline_end_to_end (r : recording) (cc dl role : pystr)
    (ctx_ingest ctx_analytics : lambda_context) (w : world) (o : s3_object) :
  recording_wf r = true -> ~ occurs PATH_CONNECT_CALLRECORDINGS (rec_prefix r) ->
  IngestCallRecording.arn_has_account (invoked_function_arn ctx_ingest) = true ->
  is_Some (w_environ w !! py "AWS_REGION") ->
  w_environ w !! IngestCallRecording.ENV_DATA_LAKE_DATA_BUCKET_NAME = Some dl ->
  w_environ w !! RunCallAnalytics.ENV_DATA_ACCESS_ROLE_ARN = Some role ->
  w_s3 w !! (cc, connect_key r) = Some o ->
  RunCallAnalytics.entropy_injective w -> RunCallAnalytics.job_names_drawn w ->
  exists w1 w2,
    IngestCallRecording.lambda_handler (object_created_event cc (connect_key r)) ctx_ingest w
    = (w1, Ok tt)
    /\ RunCallAnalytics.lambda_handler (object_created_event dl (datalake_key r)) ctx_analytics w1
       = (w2, Ok tt)
    /\ pipeline cc (connect_key r) ctx_ingest ctx_analytics w = (w2, Ok tt)
    /\ w_s3 w2 !! (dl, datalake_key r) = Some o
    /\ w_jobs w2 !! RunCallAnalytics.next_job_name w
       = Some (CallAnalyticsJob (py "s3://" ++ dl ++ py "/" ++ datalake_key r)
                 (py "s3://" ++ dl ++ py "/" ++ analytics_key r)
                 role RunCallAnalytics.channel_definitions).
Proof.
  intros Hwf Hpre Harn Hreg Hdl Hrole Ho Hinj Hd.
  assert (Hkey : IngestCallRecording.construct_destination_object_key (connect_key r)
                 = datalake_key r).
  { by apply IngestCallRecording.construct_destination_object_key_connect. }
  assert (Hakey : RunCallAnalytics.construct_destination_object_key (datalake_key r)
                  = analytics_key r).
  { by apply RunCallAnalytics.construct_destination_object_key_datalake. }
  set (w1 := set_s3 (<[(dl, datalake_key r) := o]>) w).
  assert (Hrun1 : IngestCallRecording.lambda_handler (object_created_event cc (connect_key r))
                    ctx_ingest w = (w1, Ok tt)).
  { rewrite IngestCallRecording.ingest_handler_plan,
      IngestCallRecording.ingest_plan_created by done.
    unfold environ_get. rewrite Hdl, Hkey. by apply (copy_object_ok _ (cc, connect_key r)). }
  exists w1, (set_jobs (<[RunCallAnalytics.next_job_name w :=
      CallAnalyticsJob (py "s3://" ++ dl ++ py "/" ++ datalake_key r)
        (py "s3://" ++ dl ++ py "/" ++ analytics_key r)
        role RunCallAnalytics.channel_definitions]>) (advance_uuid w1)).
  assert (Hrun2 : RunCallAnalytics.lambda_handler (object_created_event dl (datalake_key r))
                    ctx_analytics w1
                  = (set_jobs (<[RunCallAnalytics.next_job_name w :=
                       CallAnalyticsJob (py "s3://" ++ dl ++ py "/" ++ datalake_key r)
                         (py "s3://" ++ dl ++ py "/" ++ analytics_key r)
                         role RunCallAnalytics.channel_definitions]>) (advance_uuid w1), Ok tt)).
  { rewrite RunCallAnalytics.analytics_handler_plan,
      (RunCallAnalytics.analytics_plan_created _ _ _ dl) by (rewrite data_lake_bucket_variable_shared; exact Hdl).
    unfold environ_get. simpl. rewrite Hrole, Hakey. apply start_call_analytics_job_ok.
    exact (RunCallAnalytics.next_job_name_fresh w Hinj Hd). }
  split; [done|]. split; [done|]. split.
  - unfold pipeline. rewrite (bind_step _ _ _ _ _ Hrun1). simpl.
    unfold bind, gets, environ_get. replace (w_environ w1) with (w_environ w) by done.
    rewrite Hdl, Hkey. exact Hrun2.
  - simpl. split; [apply lookup_insert_eq | apply lookup_insert_eq].
Qed.

(** C23. Ingestion and analytics invocations commute: whatever events
    they receive, running an ingestion invocation before an analytics one
    or after it ends in the same world with the same two results, since the
    first changes only S3 and reads no job, and the second changes only the
    jobs and the random cursor and reads no object. *)
Theorem handlers_commute (e1 e2 : pyval) (c1 c2 : lambda_context) (w : world) :
  invoke_both (IngestCallRecording.lambda_handler e1 c1) (RunCallAnalytics.lambda_handler e2 c2) w
  = let '(w', (r2, r1)) :=
      invoke_both (RunCallAnalytics.lambda_handler e2 c2) (IngestCallRecording.lambda_handler e1 c1) w
    in (w', (r1, r2)).
Proof.
  destruct w as [env s3 jobs ent n].
  destruct (IngestCallRecording.ingest_handler_frame e1 c1 env s3 ent) as (s3' & r1 & HI).
  destruct (RunCallAnalytics.analytics_handler_frame e2 c2 env jobs ent n) as (jobs' & n' & r2 & HA).
  unfold invoke_both. by rewrite HI, HA, HA, HI.
Qed.

(** C30. Analytics invocations commute up to the names of the jobs: from a
    world whose jobs were named by earlier tokens of a source that never
    repeats, two invocations on any events, in either order, answer the
    same and end in worlds that differ only in which name each job got. *)
Theorem analytics_handlers_commute (e1 e2 : pyval) (c1 c2 : lambda_context) (w : world) :
  RunCallAnalytics.entropy_injective w -> RunCallAnalytics.job_names_drawn w ->
  let '(w12, (r1, r2)) :=
    invoke_both (RunCallAnalytics.lambda_handler e1 c1) (RunCallAnalytics.lambda_handler e2 c2) w in
  let '(w21, (r2', r1')) :=
    invoke_both (RunCallAnalytics.lambda_handler e2 c2) (RunCallAnalytics.lambda_handler e1 c1) w in
  world_equiv w12 w21 /\ r1 = r1' /\ r2 = r2'.
Proof.
  intros Hinj Hd. unfold invoke_both.
  destruct (RunCallAnalytics.lambda_handler e1 c1 w) as [w1 r1] eqn:E1.
  destruct (RunCallAnalytics.lambda_handler e2 c2 w) as [w2 r2] eqn:E2.
  destruct (RunCallAnalytics.lambda_handler_drawn _ _ _ _ _ Hd E1) as [Hd1 Hent1].
  destruct (RunCallAnalytics.lambda_handler_drawn _ _ _ _ _ Hd E2) as [Hd2 Hent2].
  assert (Hinj1 : RunCallAnalytics.entropy_injective w1)
    by (unfold RunCallAnalytics.entropy_injective; by rewrite Hent1).
  assert (Hinj2 : RunCallAnalytics.entropy_injective w2)
    by (unfold RunCallAnalytics.entropy_injective; by rewrite Hent2).
  rewrite (RunCallAnalytics.lambda_handler_fresh _ _ w1 Hinj1 Hd1),
    (RunCallAnalytics.lambda_handler_fresh _ _ w2 Hinj2 Hd2).
  rewrite (RunCallAnalytics.lambda_handler_fresh _ _ w Hinj Hd) in E1.
  rewrite (RunCallAnalytics.lambda_handler_fresh _ _ w Hinj Hd) in E2.
  destruct (RunCallAnalytics.analytics_plan e1 (w_environ w)) as [[m1 o1]|x1] eqn:P1;
  destruct (RunCallAnalytics.analytics_plan e2 (w_environ w)) as [[m2 o2]|x2] eqn:P2;
  destruct (environ_get (w_environ w) RunCallAnalytics.ENV_DATA_ACCESS_ROLE_ARN) as [role|] eqn:R;
  injection E1 as <- <-; injection E2 as <- <-; cbn [w_environ set_jobs advance_uuid];
  rewrite ?P1, ?P2, ?R; try (split; [reflexivity|done]).
  repeat split; cbn [w_environ w_s3 w_entropy w_uuid_cursor w_jobs]; [done..|].
  apply job_values_insert_swap.
  - exact (RunCallAnalytics.next_job_name_advance_ne w Hinj).
  - exact (RunCallAnalytics.next_job_name_fresh w Hinj Hd).
  - apply (RunCallAnalytics.next_job_name_fresh (advance_uuid w)); [done|].
    intros name j Hj. destruct (Hd name j Hj) as (i & Hi & ->). exists i. simpl. split; [lia|done].
Qed.

(** C22. The path convention survives any key: for every key Connect may
    write, well-formed or not (a key without the marker included), a run
    of the pipeline submits a job whose output location in the data-lake
    bucket starts with the transcription prefix and ends with the result
    suffix and [.json]. *)
Theorem pipeline_output_location (cc key dl role : pystr)
    (ctx_ingest ctx_analytics : lambda_context) (w : world) (o : s3_object) :
  IngestCallRecording.arn_has_account (invoked_function_arn ctx_ingest) = true ->
  is_Some (w_environ w !! py "AWS_REGION") ->
  w_environ w !! IngestCallRecording.ENV_DATA_LAKE_DATA_BUCKET_NAME = Some dl ->
  w_environ w !! RunCallAnalytics.ENV_DATA_ACCESS_ROLE_ARN = Some role ->
  w_s3 w !! (cc, key) = Some o ->
  w_jobs w !! RunCallAnalytics.next_job_name w = None ->
  exists w2 x,
    pipeline cc key ctx_ingest ctx_analytics w = (w2, Ok tt)
    /\ (job_output_location <$> w_jobs w2 !! RunCallAnalytics.next_job_name w)
       = Some (py "s3://" ++ dl ++ py "/" ++ PATH_TRANSCRIBE_CALLANALYTICS_RAW ++ x
               ++ PATH_CALL_ANALYTICS_RESULT ++ py ".json").
Proof.
  intros Harn Hreg Hdl Hrole Ho Hfree.
  destruct (IngestCallRecording.construct_destination_object_key_wav key) as [m Hm].
  eexists _, _. split; [by apply pipeline_run|].
  simpl. rewrite lookup_insert_eq. simpl.
  rewrite Hm, RunCallAnalytics.construct_destination_object_key_raw_wav. reflexivity.
Qed.
End Pipeline.

Lemma pipeline_end_to_end_witness :
  exists w1 w2,
    IngestCallRecording.lambda_handler
      (object_created_event (py "contact-center") (connect_key sample_recording))
      IngestCallRecording.sample_context pipeline_world = (w1, Ok tt)
    /\ RunCallAnalytics.lambda_handler
         (object_created_event (py "data-lake") (datalake_key sample_recording))
         (LambdaContext []) w1 = (w2, Ok tt)
    /\ pipeline (py "contact-center") (connect_key sample_recording)
         IngestCallRecording.sample_context (LambdaContext []) pipeline_world = (w2, Ok tt)
    /\ w_s3 w2 !! (py "data-lake", datalake_key sample_recording) = Some (S3Object (py "RIFF"))
    /\ w_jobs w2 !! RunCallAnalytics.next_job_name pipeline_world
       = Some (CallAnalyticsJob (py "s3://" ++ py "data-lake" ++ py "/" ++ datalake_key sample_recording)
                 (py "s3://" ++ py "data-lake" ++ py "/" ++ analytics_key sample_recording)
                 (py "arn:aws:iam::123456789012:role/transcribe")
                 RunCallAnalytics.channel_definitions).
Proof.
  apply pipeline_end_to_end.
  - reflexivity.
  - apply find_nat_none. vm_compute. reflexivity.
  - reflexivity.
  - eexists. reflexivity.
  - reflexivity.
  - reflexivity.
  - reflexivity.
  - by apply (RunCallAnalytics.entropy_injective_replicate _ "f"%char).
  - by apply RunCallAnalytics.job_names_drawn_empty.
Defined.

Lemma pipeline_output_location_witness :
  exists w2 x,
    pipeline (py "contact-center") (py "CallRecordings/oops.wav")
      IngestCallRecording.sample_context (LambdaContext []) broken_key_world = (w2, Ok tt)
    /\ (job_output_location <$> w_jobs w2 !! RunCallAnalytics.next_job_name broken_key_world)
       = Some (py "s3://" ++ py "data-lake" ++ py "/" ++ PATH_TRANSCRIBE_CALLANALYTICS_RAW ++ x
               ++ PATH_CALL_ANALYTICS_RESULT ++ py ".json").
Proof.
  apply (pipeline_output_location _ _ (py "data-lake") (py "arn:aws:iam::123456789012:role/transcribe")
           _ _ _ (S3Object (py "RIFF"))); try reflexivity.
  eexists. reflexivity.
Defined.

Lemma handlers_commute_witness :
  invoke_both
    (IngestCallRecording.lambda_handler
       (object_created_event (py "contact-center") (connect_key sample_recording))
       IngestCallRecording.sample_context)
    (RunCallAnalytics.lambda_handler
       (object_created_event (py "data-lake") (datalake_key sample_recording)) (LambdaContext []))
    pipeline_world
  = let '(w', (r2, r1)) :=
      invoke_both
        (RunCallAnalytics.lambda_handler
           (object_created_event (py "data-lake") (datalake_key sample_recording)) (LambdaContext []))
        (IngestCallRecording.lambda_handler
           (object_created_event (py "contact-center") (connect_key sample_recording))
           IngestCallRecording.sample_context)
        pipeline_world
    in (w', (r1, r2)).
Proof. apply handlers_commute. Defined.

Lemma analytics_handlers_commute_witness :
  let e1 := object_created_event (py "data-lake") (datalake_key sample_recording) in
  let e2 := object_created_event (py "data-lake") (py "call-recordings-raw/other.wav") in
  let '(w12, (r1, r2)) :=
    invoke_both (RunCallAnalytics.lambda_handler e1 (LambdaContext []))
      (RunCallAnalytics.lambda_handler e2 (LambdaContext [])) RunCallAnalytics.sample_analytics_world in
  let '(w21, (r2', r1')) :=
    invoke_both (RunCallAnalytics.lambda_handler e2 (LambdaContext []))
      (RunCallAnalytics.lambda_handler e1 (LambdaContext [])) RunCallAnalytics.sample_analytics_world in
  world_equiv w12 w21 /\ r1 = r1' /\ r2 = r2'.
Proof.
  intros e1 e2. apply analytics_handlers_commute.
  - by apply (RunCallAnalytics.entropy_injective_replicate _ "f"%char).
  - by apply RunCallAnalytics.job_names_drawn_empty.
Defined.
