(* ===== verification/EventLoop.v ===== *)
(** * The platform delivering events to the two functions

    EventBridge holds the events not yet handled and delivers them to the
    functions in no fixed order. An ingestion invocation that stores its
    copy makes S3 emit the "Object Created" event of the copy, which the
    rule of the data-lake bucket routes to the analytics function; an
    invocation that raises is dropped (the platform's retries are outside
    the code). A state of the system is the world and the list of pending
    deliveries; [sys_step] delivers any one of them. The events of
    analytics results written by Transcribe are outside the code and are
    not emitted here.

    The theorems: every run that empties the queue, from a world where the
    pipeline is configured and a recording was stored, has submitted the
    job of that recording, whatever the other events and their order; no
    run removes data or invents content; and no run submits more jobs than
    events were pending. Termination is not claimed: the routing of the
    copy's event is the deployment's rule, fixed here, and every run being
    finite would follow from that fixed routing rather than from the code. *)

From S2P Require Import Prelude PyRuntime PyStr AuxPaths RecordingKeys AwsServices EventBridge IngestHandler AnalyticsHandler Pipeline.

Inductive target := IngestFunction | AnalyticsFunction.

Record sys := Sys {
  s_world : world;
  s_pending : list (target * pyval);
}.

Section Platform.
Context `{AuxPaths}.
Context (ctx_ingest ctx_analytics : lambda_context).

(** What S3 emits after an ingestion invocation: the event of the copy,
    in the bucket and under the key [copy_object] was given, when the
    invocation succeeded. [ingest_plan] computes those arguments, and
    [ingest_handler_cases] proves that a successful [lambda_handler] stored
    exactly that object. The target is the deployment's rule for the
    data-lake bucket, the analytics function; it is configuration outside
    src/, so it is fixed here and not derived from the bucket name. *)
Definition emitted (env : environ) (event : pyval) (r : res unit) : list (target * pyval) :=
  match r, IngestCallRecording.ingest_plan event ctx_ingest env with
  | Ok _, Ok (_, Some dl, key) => [(AnalyticsFunction, object_created_event dl key)]
  | _, _ => []
  end.

Inductive sys_step : sys -> sys -> Prop :=
| step_ingest w pre post event w' r :
    IngestCallRecording.lambda_handler event ctx_ingest w = (w', r) ->
    sys_step (Sys w (pre ++ (IngestFunction, event) :: post))
             (Sys w' (pre ++ post ++ emitted (w_environ w) event r))
| step_analytics w pre post event w' r :
    RunCallAnalytics.lambda_handler event ctx_analytics w = (w', r) ->
    sys_step (Sys w (pre ++ (AnalyticsFunction, event) :: post)) (Sys w' (pre ++ post)).

(** The jobs stored and the deliveries pending: each pending delivery can
    add at most one job, directly or through the event of its copy. *)
Definition job_budget (s : sys) : nat := size (w_jobs (s_world s)) + length (s_pending s).
End Platform.

(** What a run may do to the data: the environment is unchanged, no
    object is removed from S3, every object holds the content of an object
    that was already stored, and no job is removed or altered. *)
Definition keeps_data (w w' : world) : Prop :=
  w_environ w' = w_environ w
  /\ (forall k, is_Some (w_s3 w !! k) -> is_Some (w_s3 w' !! k))
  /\ (forall k o, w_s3 w' !! k = Some o -> exists k', w_s3 w !! k' = Some o)
  /\ w_jobs w ⊆ w_jobs w'.

(** ** What an ingestion emits *)

Section Emission.
Context `{AuxPaths} (ctx_ingest ctx_analytics : lambda_context).

(** An ingestion invocation emits nothing or one event for the analytics
    function. *)
Lemma emitted_cases (env : environ) (event : pyval) (r : res unit) :
  emitted ctx_ingest env event r = []
  \/ exists e, emitted ctx_ingest env event r = [(AnalyticsFunction, e)].
Proof.
  unfold emitted. destruct r; [|by left].
  destruct (IngestCallRecording.ingest_plan _ _ _) as [[[? [?|]] ?]|]; eauto.
Qed.

End Emission.

(** ** The job of a stored recording is eventually submitted *)

Section Liveness.
Context `{AuxPathsOk} (ctx_ingest ctx_analytics : lambda_context).
Variables (r : recording) (cc dl role : pystr) (w0 : world).
Hypothesis Hwf : recording_wf r = true.
Hypothesis Hpre : ~ occurs PATH_CONNECT_CALLRECORDINGS (rec_prefix r).
Hypothesis Harn : IngestCallRecording.arn_has_account (invoked_function_arn ctx_ingest) = true.
Hypothesis Hreg : is_Some (w_environ w0 !! py "AWS_REGION").
Hypothesis Hdl : w_environ w0 !! IngestCallRecording.ENV_DATA_LAKE_DATA_BUCKET_NAME = Some dl.
Hypothesis Hrole : w_environ w0 !! RunCallAnalytics.ENV_DATA_ACCESS_ROLE_ARN = Some role.
Hypothesis Hinj : RunCallAnalytics.entropy_injective w0.

Definition recording_event : pyval := object_created_event cc (connect_key r).
Definition copy_event : pyval := object_created_event dl (datalake_key r).
Definition recording_job : call_analytics_job :=
  CallAnalyticsJob (py "s3://" ++ dl ++ py "/" ++ datalake_key r)
    (py "s3://" ++ dl ++ py "/" ++ analytics_key r) role RunCallAnalytics.channel_definitions.

(** What every state of a run keeps: the environment and the random source
    of [w0], job names drawn from it, the recording still stored, and the
    recording on its way: its event pending, the event of its copy
    pending, or its job submitted. *)
Definition tracked (s : sys) : Prop :=
  w_environ (s_world s) = w_environ w0 /\ w_entropy (s_world s) = w_entropy w0
  /\ RunCallAnalytics.job_names_drawn (s_world s)
  /\ is_Some (w_s3 (s_world s) !! (cc, connect_key r))
  /\ ((IngestFunction, recording_event) ∈ s_pending s
      \/ (AnalyticsFunction, copy_event) ∈ s_pending s
      \/ exists name, w_jobs (s_world s) !! name = Some recording_job).

Lemma elem_of_delivered {A} (x d : A) (pre post : list A) :
  x ∈ pre ++ d :: post -> x = d \/ x ∈ pre ++ post.
Proof. rewrite !elem_of_app, elem_of_cons. intros [|[|]]; auto. Qed.

Lemma elem_of_undelivered {A} (x : A) (pre post l : list A) :
  x ∈ pre ++ post -> x ∈ pre ++ post ++ l.
Proof. rewrite !elem_of_app. tauto. Qed.

Lemma elem_of_emitted {A} (x : A) (pre post : list A) : x ∈ pre ++ post ++ [x].
Proof. rewrite !elem_of_app, list_elem_of_singleton. tauto. Qed.

(** Delivering the recording's event copies it and emits the event of the
    copy. *)
Lemma ingest_recording_event (w w' : world) res :
  w_environ w = w_environ w0 -> is_Some (w_s3 w !! (cc, connect_key r)) ->
  IngestCallRecording.lambda_handler recording_event ctx_ingest w = (w', res) ->
  res = Ok tt /\ emitted ctx_ingest (w_environ w) recording_event res = [(AnalyticsFunction, copy_event)].
Proof.
  intros Henv [o Ho] Hrun.
  assert (Hkey := IngestCallRecording.construct_destination_object_key_connect r Hwf Hpre).
  assert (Hplan : IngestCallRecording.ingest_plan recording_event ctx_ingest (w_environ w)
                  = Ok (PDict [(py "Bucket", PStr cc); (py "Key", PStr (connect_key r))],
                        Some dl, datalake_key r)).
  { unfold recording_event. rewrite IngestCallRecording.ingest_plan_created; rewrite ?Henv; [|done..].
    unfold environ_get. by rewrite Hdl, Hkey. }
  rewrite IngestCallRecording.ingest_handler_plan, Hplan in Hrun.
  rewrite (copy_object_ok _ (cc, connect_key r) _ _ _ o) in Hrun by done.
  injection Hrun as _ <-. split; [done|]. unfold emitted. by rewrite Hplan.
Qed.

(** Delivering the event of the copy submits the recording's job under the
    next name, which is free. *)
Lemma analytics_copy_event (w w' : world) res :
  w_environ w = w_environ w0 -> w_entropy w = w_entropy w0 -> RunCallAnalytics.job_names_drawn w ->
  RunCallAnalytics.lambda_handler copy_event ctx_analytics w = (w', res) ->
  w_jobs w' !! RunCallAnalytics.next_job_name w = Some recording_job.
Proof.
  intros Henv Hent Hd Hrun.
  assert (Hfree : w_jobs w !! RunCallAnalytics.next_job_name w = None).
  { apply RunCallAnalytics.next_job_name_fresh; [|done]. unfold RunCallAnalytics.entropy_injective.
    rewrite Hent. exact Hinj. }
  unfold copy_event in Hrun.
  rewrite RunCallAnalytics.analytics_handler_plan,
    (RunCallAnalytics.analytics_plan_created _ _ _ dl) in Hrun by (rewrite Henv; exact Hdl).
  unfold environ_get in Hrun. rewrite Henv, Hrole in Hrun.
  rewrite start_call_analytics_job_ok in Hrun by done. injection Hrun as <- _.
  simpl. rewrite lookup_insert_eq.
  by rewrite RunCallAnalytics.construct_destination_object_key_datalake by done.
Qed.

Lemma tracked_step (s s' : sys) :
  tracked s -> sys_step ctx_ingest ctx_analytics s s' -> tracked s'.
Proof.
  intros (Henv & Hent & Hd & Hs3 & Hway) Hstep.
  destruct Hstep as [w pre post event w' res Hrun|w pre post event w' res Hrun];
    unfold tracked; cbn [s_world s_pending] in *.
  - destruct (IngestCallRecording.ingest_handler_cases _ _ _ _ _ Hrun)
      as [[-> Hres]|(cs & dl' & key & src & o & _ & _ & _ & -> & ->)].
    + do 4 (split; [done|]).
      destruct Hway as [Hin|[Hin|Hjob]]; [|right; left|by right; right].
      * destruct (elem_of_delivered _ _ _ _ Hin) as [[= <-]|Hin'].
        -- by destruct (ingest_recording_event w w res Henv Hs3 Hrun).
        -- left. by apply elem_of_undelivered.
      * destruct (elem_of_delivered _ _ _ _ Hin) as [[=]|Hin']. by apply elem_of_undelivered.
    + unfold set_s3. cbn [w_environ w_s3 w_jobs w_entropy].
      do 3 (split; [done|]). split.
      { destruct Hs3 as [o' Ho']. rewrite lookup_insert. case_decide; eauto. }
      destruct Hway as [Hin|[Hin|Hjob]]; [|right; left|by right; right].
      * destruct (elem_of_delivered _ _ _ _ Hin) as [[= <-]|Hin'].
        -- right; left. destruct (ingest_recording_event w _ (Ok tt) Henv Hs3 Hrun) as [_ ->].
           apply elem_of_emitted.
        -- left. by apply elem_of_undelivered.
      * destruct (elem_of_delivered _ _ _ _ Hin) as [[=]|Hin']. by apply elem_of_undelivered.
  - destruct (RunCallAnalytics.lambda_handler_drawn _ _ _ _ _ Hd Hrun) as [Hd' Hent'].
    assert (Hframe : w_environ w' = w_environ w /\ w_s3 w' = w_s3 w).
    { by destruct (RunCallAnalytics.lambda_handler_cases _ _ _ _ _ Hrun)
        as [->|[->|(? & ? & ? & _ & _ & _ & ->)]]. }
    destruct Hframe as [Henv' Hs3']. rewrite Henv', Hs3'. split; [done|]. split; [congruence|].
    do 2 (split; [done|]).
    destruct Hway as [Hin|[Hin|[name Hjob]]].
    + left. destruct (elem_of_delivered _ _ _ _ Hin) as [[=]|Hin']. done.
    + destruct (elem_of_delivered _ _ _ _ Hin) as [[= <-]|Hin']; [|by right; left].
      right; right. exists (RunCallAnalytics.next_job_name w). by eapply analytics_copy_event.
    + right; right. exists name.
      destruct (RunCallAnalytics.lambda_handler_cases _ _ _ _ _ Hrun)
        as [->|[->|(? & ? & ? & _ & _ & Hfree & ->)]]; [done|done|].
      simpl. rewrite lookup_insert_ne; [done|]. intros <-. congruence.
Qed.
Lemma tracked_rtc (s s' : sys) :
  rtc (sys_step ctx_ingest ctx_analytics) s s' -> tracked s -> tracked s'.
Proof. induction 1 as [|s1 s2 s3 Hstep _ IH]; [done|]. intros Hs. by apply IH, (tracked_step s1). Qed.

(** C26. Liveness: when a well-formed recording is stored in a configured
    world whose random source never repeats, every run that starts with
    its event pending, among any other events, and ends with no event
    pending, has submitted the recording's job: reading its data-lake copy
    and writing its analytics key, under the configured role. Other
    recordings, other jobs and any order of delivery do not prevent it. *)
Theorem sys_runs_submit (o : s3_object) (others : list (target * pyval)) (s : sys) :
  w_s3 w0 !! (cc, connect_key r) = Some o -> RunCallAnalytics.job_names_drawn w0 ->
  rtc (sys_step ctx_ingest ctx_analytics) (Sys w0 ((IngestFunction, recording_event) :: others)) s ->
  s_pending s = [] ->
  exists name, w_jobs (s_world s) !! name = Some recording_job.
Proof.
  intros Ho Hd Hrun Hend.
  destruct (tracked_rtc _ _ Hrun) as (_ & _ & _ & _ & Hway).
  - unfold tracked. cbn [s_world s_pending]. do 3 (split; [done|]). split; [by eexists|].
    left. apply elem_of_cons. by left.
  - rewrite Hend in Hway. destruct Hway as [Hin|[Hin|Hjob]]; [by apply not_elem_of_nil in Hin..|done].
Qed.
End Liveness.

(** ** No run submits more jobs than events were pending *)

Section Bounds.
Context `{AuxPathsOk} (ctx_ingest ctx_analytics : lambda_context).

Lemma sys_step_budget (s s' : sys) :
  sys_step ctx_ingest ctx_analytics s s' -> job_budget s' <= job_budget s.
Proof.
  unfold job_budget. intros [w pre post event w' r Hrun|w pre post event w' r Hrun];
    cbn [s_world s_pending]; rewrite !length_app; simpl.
  - assert (Hj : w_jobs w' = w_jobs w).
    { by destruct (IngestCallRecording.ingest_handler_cases _ _ _ _ _ Hrun)
        as [[-> _]|(? & ? & ? & ? & ? & _ & _ & _ & -> & _)]. }
    rewrite Hj. destruct (emitted_cases ctx_ingest (w_environ w) event r) as [->|[e ->]]; simpl; lia.
  - destruct (RunCallAnalytics.lambda_handler_cases _ _ _ _ _ Hrun)
      as [->|[->|(? & ? & ? & _ & _ & Hfree & ->)]]; simpl; [lia|lia|].
    rewrite map_size_insert_None by done. lia.
Qed.

(** C29. Bound on the jobs: along any run of the platform, the number of
    jobs in the store never exceeds the number at the start plus the number
    of deliveries pending at the start. Each event gives at most one job,
    directly or through the event of its copy; the platform creates none of
    its own, however the deliveries are ordered. *)
Theorem sys_runs_job_bound (s s' : sys) :
  rtc (sys_step ctx_ingest ctx_analytics) s s' ->
  size (w_jobs (s_world s')) <= size (w_jobs (s_world s)) + length (s_pending s).
Proof.
  intros Hrun. enough (job_budget s' <= job_budget s) by (unfold job_budget in *; lia).
  induction Hrun as [|s1 s2 s3 Hstep _ IH]; [done|].
  etrans; [exact IH|]. by apply sys_step_budget.
Qed.
End Bounds.

(** ** No data is lost or invented *)

#[export] Instance keeps_data_preorder : PreOrder keeps_data.
Proof.
  split.
  - intros w. repeat split; eauto.
  - intros w1 w2 w3 (E1 & K1 & O1 & J1) (E2 & K2 & O2 & J2).
    repeat split; [congruence | eauto | | by etrans].
    intros k o Hk. destruct (O2 k o Hk) as (k' & Hk'). eauto.
Qed.

Section Preservation.
Context `{AuxPathsOk} (ctx_ingest ctx_analytics : lambda_context).

Lemma sys_step_keeps_data (s s' : sys) :
  sys_step ctx_ingest ctx_analytics s s' -> keeps_data (s_world s) (s_world s').
Proof.
  intros [w pre post event w' r Hrun|w pre post event w' r Hrun]; cbn [s_world].
  - destruct (IngestCallRecording.ingest_handler_cases _ _ _ _ _ Hrun)
      as [[-> _]|(? & ? & ? & ? & o & _ & _ & Ho & -> & _)]; [reflexivity|].
    repeat split; cbn [w_s3 w_environ w_jobs set_s3].
    + intros k Hk. rewrite lookup_insert. case_decide; [done|exact Hk].
    + intros k o' Hk. rewrite lookup_insert in Hk. case_decide; simplify_eq; eauto.
    + reflexivity.
  - destruct (RunCallAnalytics.lambda_handler_cases _ _ _ _ _ Hrun)
      as [->|[->|(? & ? & ? & _ & _ & Hfree & ->)]]; [reflexivity| |];
      repeat split; cbn [w_s3 w_environ w_jobs set_jobs advance_uuid]; eauto.
    by apply insert_subseteq.
Qed.

(** C33. No data loss: along any run of the platform, whatever the events
    and the order of delivery, the environment is unchanged, every object
    stored at the start is still stored, every stored object holds the
    content of an object stored at the start (the handlers only copy), and
    every job of the start is still there, unchanged. *)
Theorem sys_runs_keep_data (s s' : sys) :
  rtc (sys_step ctx_ingest ctx_analytics) s s' -> keeps_data (s_world s) (s_world s').
Proof.
  induction 1 as [|s1 s2 s3 Hstep _ IH]; [reflexivity|].
  etrans; [exact (sys_step_keeps_data _ _ Hstep) | exact IH].
Qed.
End Preservation.

(** ** A run on the pipeline world: the recording's event, then the event
    of its copy. *)
Lemma sample_run :
  exists w2,
    rtc (sys_step IngestCallRecording.sample_context (LambdaContext []))
      (Sys pipeline_world [(IngestFunction, recording_event sample_recording (py "contact-center"))])
      (Sys w2 []).
Proof.
  set (ci := IngestCallRecording.sample_context). set (ca := LambdaContext []).
  set (ev := recording_event sample_recording (py "contact-center")).
  set (cev := copy_event sample_recording (py "data-lake")).
  destruct (IngestCallRecording.lambda_handler ev ci pipeline_world) as [w1 r1] eqn:H1.
  destruct (RunCallAnalytics.lambda_handler cev ca w1) as [w2 r2] eqn:H2.
  assert (Hpre : ~ occurs PATH_CONNECT_CALLRECORDINGS (rec_prefix sample_recording))
    by (apply find_nat_none; vm_compute; reflexivity).
  assert (Hem : emitted ci (w_environ pipeline_world) ev r1 = [(AnalyticsFunction, cev)]).
  { refine (proj2 (ingest_recording_event ci sample_recording (py "contact-center") (py "data-lake")
                     pipeline_world eq_refl Hpre eq_refl _ eq_refl pipeline_world w1 r1 eq_refl _ H1));
      eexists; reflexivity. }
  exists w2.
  eapply rtc_l; [exact (step_ingest ci ca pipeline_world [] [] ev w1 r1 H1)|].
  cbn [app]. rewrite Hem.
  eapply rtc_l; [exact (step_analytics ci ca w1 [] [] cev w2 r2 H2)|]. apply rtc_refl.
Qed.


Lemma sys_runs_submit_witness :
  exists s,
    rtc (sys_step IngestCallRecording.sample_context (LambdaContext []))
      (Sys pipeline_world [(IngestFunction, recording_event sample_recording (py "contact-center"))]) s
    /\ s_pending s = []
    /\ exists name, w_jobs (s_world s) !! name
         = Some (recording_job sample_recording (py "data-lake")
                   (py "arn:aws:iam::123456789012:role/transcribe")).
Proof.
  destruct sample_run as [w2 Hrun].
  exists (Sys w2 []). split; [exact Hrun|]. split; [reflexivity|].
  apply (sys_runs_submit IngestCallRecording.sample_context (LambdaContext []) sample_recording
           (py "contact-center") (py "data-lake") (py "arn:aws:iam::123456789012:role/transcribe")
           pipeline_world eq_refl ltac:(apply find_nat_none; vm_compute; reflexivity) eq_refl
           ltac:(eexists; reflexivity) eq_refl eq_refl) with (S3Object (py "RIFF")) [];
    [| reflexivity | | exact Hrun | reflexivity].
  - by apply (RunCallAnalytics.entropy_injective_replicate _ "f"%char).
  - by apply RunCallAnalytics.job_names_drawn_empty.
Defined.

Lemma sys_runs_job_bound_witness :
  exists w2,
    rtc (sys_step IngestCallRecording.sample_context (LambdaContext []))
      (Sys pipeline_world [(IngestFunction, recording_event sample_recording (py "contact-center"))])
      (Sys w2 [])
    /\ size (w_jobs w2) <= size (w_jobs pipeline_world) + 1.
Proof.
  destruct sample_run as [w2 Hrun]. exists w2. split; [exact Hrun|].
  exact (sys_runs_job_bound IngestCallRecording.sample_context (LambdaContext []) _ _ Hrun).
Defined.

Lemma sys_runs_keep_data_witness :
  exists w2,
    rtc (sys_step IngestCallRecording.sample_context (LambdaContext []))
      (Sys pipeline_world [(IngestFunction, recording_event sample_recording (py "contact-center"))])
      (Sys w2 [])
    /\ keeps_data pipeline_world w2.
Proof.
  destruct sample_run as [w2 Hrun]. exists w2. split; [exact Hrun|].
  exact (sys_runs_keep_data IngestCallRecording.sample_context (LambdaContext []) _ _ Hrun).
Defined.
